(** * Reselect: a shallow embedding of the memoized-selector engine

    The development follows the layout of the repository:
    - [JS]            : the fragment of JavaScript values the library
                        inspects ([typeof], [Array.isArray], [===]);
    - [Eff]           : the effects of the code (exceptions, the console,
                        object allocation, closure-private variables);
    - [Memoize]       : the memoizer capability of [src/types.ts];
    - [Utils]         : [src/utils.ts];
    - [DefaultMemoize], [Selector] : the default memoizer, [createSelector]
                        and [createStructuredSelector];
    - [Spec], [Fixtures] : the vocabulary of the properties and the
                        fixtures of [test/test_selector.ts];
    - the properties, one module per part of the code, and the scenarios
      of the test file replayed on the model. *)

From Stdlib Require Import ZArith List Ascii String Bool Arith Lia.
Import ListNotations.
Local Open Scope string_scope.
Local Open Scope list_scope.
Set Warnings "-register-all".

(* ================================================================== *)
(** ** JavaScript values *)

Module JS.

Definition loc := nat.

(** Objects, arrays and functions are references: a location together with
    the (immutable) content read through it.  States handed to selectors are
    never mutated in place, so a reference is identified by both. *)
Inductive value : Type :=
| VUndefined
| VNull
| VBoolean (b : bool)
| VNumber (n : Z)
| VString (s : string)
| VSymbol (id : nat)
| VBigInt (n : Z)
| VObject (ref : loc) (fields : list (string * value))
| VArray (ref : loc) (items : list value)
| VFunction (ref : loc) (name : string).

(** [typeof v] *)
Definition typeof (v : value) : string :=
  match v with
  | VUndefined => "undefined"
  | VNull => "object"
  | VBoolean _ => "boolean"
  | VNumber _ => "number"
  | VString _ => "string"
  | VSymbol _ => "symbol"
  | VBigInt _ => "bigint"
  | VObject _ _ => "object"
  | VArray _ _ => "object"
  | VFunction _ _ => "function"
  end.

(** [Array.isArray(v)] *)
Definition isArray (v : value) : bool :=
  match v with
  | VArray _ _ => true
  | _ => false
  end.

(** [a === b] *)
Fixpoint strict_eq (a b : value) : bool :=
  match a, b with
  | VUndefined, VUndefined => true
  | VNull, VNull => true
  | VBoolean x, VBoolean y => Bool.eqb x y
  | VNumber x, VNumber y => Z.eqb x y
  | VString x, VString y => String.eqb x y
  | VSymbol x, VSymbol y => Nat.eqb x y
  | VBigInt x, VBigInt y => Z.eqb x y
  | VObject r fs, VObject r' fs' =>
      Nat.eqb r r' &&
      (fix fields_eq (xs ys : list (string * value)) : bool :=
         match xs, ys with
         | [], [] => true
         | (k, x) :: xs', (k', y) :: ys' =>
             String.eqb k k' && strict_eq x y && fields_eq xs' ys'
         | _, _ => false
         end) fs fs'
  | VArray r xs, VArray r' ys =>
      Nat.eqb r r' &&
      (fix items_eq (xs ys : list value) : bool :=
         match xs, ys with
         | [], [] => true
         | x :: xs', y :: ys' => strict_eq x y && items_eq xs' ys'
         | _, _ => false
         end) xs ys
  | VFunction r n, VFunction r' n' => Nat.eqb r r' && String.eqb n n'
  | _, _ => false
  end.

(** [obj[key]] on a plain object; [undefined] when the key is absent. *)
Fixpoint lookup_field (key : string) (fields : list (string * value)) : value :=
  match fields with
  | [] => VUndefined
  | (k, v) :: rest => if String.eqb k key then v else lookup_field key rest
  end.

Definition get (v : value) (key : string) : value :=
  match v with
  | VObject _ fields => lookup_field key fields
  | _ => VUndefined
  end.

(** What [throw] carries. *)
Inductive exn : Type :=
| TypeError (message : string)
| Error (message : string).

(** The result of evaluating an expression that may throw. *)
Inductive outcome (A : Type) : Type :=
| Return (a : A)
| Throw (e : exn).
Arguments Return {A} a.
Arguments Throw {A} e.

Definition returned {A} (o : outcome A) : bool :=
  match o with Return _ => true | Throw _ => false end.

End JS.
Import JS.

(* ================================================================== *)
(** ** Effects: exceptions, mutable state, console, allocation *)

Module Eff.

(** A computation over a mutable state [S] that returns or throws.  The
    state is kept on both paths: an assignment made before a [throw] stays. *)
Definition ST (S A : Type) : Type := S -> outcome A * S.

Definition ret {S A} (a : A) : ST S A := fun s => (Return a, s).

Definition bind {S A B} (m : ST S A) (k : A -> ST S B) : ST S B :=
  fun s =>
    match m s with
    | (Return a, s') => k a s'
    | (Throw e, s') => (Throw e, s')
    end.

Definition throw {S A} (e : exn) : ST S A := fun s => (Throw e, s).

(** [try { m } catch { handler }] *)
Definition try_catch {S A} (m : ST S A) (handler : exn -> ST S A) : ST S A :=
  fun s =>
    match m s with
    | (Return a, s') => (Return a, s')
    | (Throw e, s') => handler e s'
    end.

Definition gets {S A} (f : S -> A) : ST S A := fun s => (Return (f s), s).

Definition modify {S} (f : S -> S) : ST S unit := fun s => (Return tt, f s).

(** A pure expression that may throw, used as a statement. *)
Definition lift {S A} (o : outcome A) : ST S A := fun s => (o, s).

Declare Scope st_scope.
Delimit Scope st_scope with st.
Notation "x <- m ;; k" := (bind m (fun x => k))
  (at level 61, m at next level, right associativity) : st_scope.
Notation "m ;; k" := (bind m (fun _ => k))
  (at level 61, right associativity) : st_scope.
Open Scope st_scope.

(** Access to a part [T] of a state [S]. *)
Record lens (S T : Type) : Type := {
  view : S -> T;
  update : T -> S -> S
}.
Arguments view {S T} _ _.
Arguments update {S T} _ _ _.

(** Run a computation on a part of the state. *)
Definition zoom {S T A} (l : lens S T) (m : ST T A) : ST S A :=
  fun s =>
    match m (view l s) with
    | (r, t') => (r, update l t' s)
    end.

(** An entry written by [console.warn(message, data)]. *)
Record warning : Type := {
  message : string;
  data : list (string * list value)
}.

(** What instrumented user functions record about their calls. *)
Inductive event : Type :=
| EqualityCheck (newValue oldValue : value)
| Invoked (name : string) (args : list value).

(** The part of the runtime shared by all code: the allocator of object
    references, the console, and the journal of instrumented functions. *)
Record world : Type := {
  next_ref : loc;
  console : list warning;
  journal : list event
}.

(** Code that captures no mutable variable of its own. *)
Definition Callback (A : Type) : Type := ST world A.

(** Code of a closure whose captured variables are [C]. *)
Definition M (C A : Type) : Type := ST (C * world) A.

Definition the_world {C} : lens (C * world) world :=
  {| view := snd; update := fun w s => (fst s, w) |}.

(** A closure with a single captured variable. *)
Definition whole {C} : lens C C :=
  {| view := fun c => c; update := fun c _ => c |}.

(** Call a function that lives outside the closure. *)
Definition call {C A} (f : Callback A) : M C A := zoom the_world f.

(** Read and write the closure's own variables. *)
Definition load {C A} (f : C -> A) : M C A := gets (fun s => f (fst s)).
Definition store {C} (f : C -> C) : M C unit :=
  modify (fun s => (f (fst s), snd s)).

(** Run closure code whose variables are local to the caller: they start
    as [init] and are dropped at the end. *)
Definition scope {C A} (init : C) (m : M C A) : Callback A :=
  fun w =>
    match m (init, w) with
    | (r, (_, w')) => (r, w')
    end.

(** [{}], and more generally an object literal: a fresh reference. *)
Definition new_object (fields : list (string * value)) : Callback value :=
  fun w =>
    (Return (VObject (next_ref w) fields),
     {| next_ref := S (next_ref w); console := console w; journal := journal w |}).

(** [console.warn(message, data)] *)
Definition console_warn (msg : string) (d : list (string * list value))
  : Callback unit :=
  fun w =>
    (Return tt,
     {| next_ref := next_ref w;
        console := console w ++ [{| message := msg; data := d |}];
        journal := journal w |}).

Definition record (e : event) : Callback unit :=
  fun w =>
    (Return tt,
     {| next_ref := next_ref w; console := console w;
        journal := journal w ++ [e] |}).

(** User-supplied functions. *)
Definition Func : Type := list value -> Callback value.
Definition Selector : Type := list value -> Callback value.
Definition EqualityFn : Type := value -> value -> Callback bool.

(** A function without side effects that always returns. *)
Definition pure (f : list value -> value) : Func := fun args => ret (f args).

(** A function without side effects that may throw. *)
Definition partial (f : list value -> outcome value) : Func :=
  fun args => lift (f args).

Definition pure_eq (eq : value -> value -> bool) : EqualityFn :=
  fun a b => ret (eq a b).

(** [(a, b) => a === b] *)
Definition defaultEqualityCheck : EqualityFn := pure_eq strict_eq.

(** The same predicate, writing every consultation into the journal. *)
Definition traced_eq (eq : value -> value -> bool) : EqualityFn :=
  fun a b => record (EqualityCheck a b) ;; ret (eq a b).

(** The same function, writing every invocation into the journal. *)
Definition traced (name : string) (f : list value -> outcome value) : Func :=
  fun args => record (Invoked name args) ;; lift (f args).

End Eff.
Import Eff.

(* ================================================================== *)
(** ** The memoizer capability *)

Module Memoize.

(** [UnknownMemoizer] of [src/types.ts]: [memoize(func, ...memoizeOptions)]
    returns a function that owns private state.  A memoizer together with
    its options is described by the type of that state, its initial
    content, the code of the returned function (given where its state
    lives in the enclosing closure) and what the [clearCache] field it
    attaches does to the state. *)
Record Memoizer : Type := {
  slot : Type;
  empty : slot;
  memoized : forall C : Type,
      lens C slot -> (list value -> M C value) -> list value -> M C value;
  clearCache : slot -> slot
}.
Arguments memoized _ {C} _ _ _.

End Memoize.
Import Memoize.

(* ================================================================== *)
(** ** [src/utils.ts] *)

Module Utils.

Definition or_default (given : option string) (default : string) : string :=
  match given with
  | Some m => m
  | None => default
  end.

(** [assertIsFunction(func, errorMessage?)] *)
Definition assertIsFunction (func : value) (errorMessage : option string)
  : outcome unit :=
  let errorMessage :=
    or_default errorMessage
      ("expected a function, instead received " ++ typeof func) in
  if negb (String.eqb (typeof func) "function")
  then Throw (TypeError errorMessage)
  else Return tt.

(** [assertIsObject(object, errorMessage?)] *)
Definition assertIsObject (object : value) (errorMessage : option string)
  : outcome unit :=
  let errorMessage :=
    or_default errorMessage
      ("expected an object, instead received " ++ typeof object) in
  if negb (String.eqb (typeof object) "object")
  then Throw (TypeError errorMessage)
  else Return tt.

(** [item.name || 'unnamed'] *)
Definition name_or_unnamed (name : string) : string :=
  match name with
  | EmptyString => "unnamed"
  | _ => name
  end.

(** The callback of [array.map] inside [assertIsArrayOfFunctions]. *)
Definition itemType (item : value) : string :=
  match item with
  | VFunction _ name => "function " ++ name_or_unnamed name ++ "()"
  | _ => typeof item
  end.

Definition isFunction (item : value) : bool :=
  String.eqb (typeof item) "function".

(** [assertIsArrayOfFunctions(array, errorMessage?)] *)
Definition assertIsArrayOfFunctions (array : list value)
    (errorMessage : option string) : outcome unit :=
  let errorMessage :=
    or_default errorMessage
      "expected all items to be functions, instead received the following types: " in
  if negb (forallb isFunction array)
  then
    let itemTypes := String.concat ", " (map itemType array) in
    Throw (TypeError (errorMessage ++ "[" ++ itemTypes ++ "]"))
  else Return tt.

(** The elements of an array. *)
Definition elements (v : value) : list value :=
  match v with
  | VArray _ items => items
  | _ => []
  end.

(** [ensureIsArray(item)]: the elements of the resulting array. *)
Definition ensureIsArray (item : value) : list value :=
  if isArray item then elements item else [item].

Definition getDependencies_message : string :=
  "createSelector expects all input-selectors to be functions, but received the following types: ".

(** The array [getDependencies] validates:
    [Array.isArray(createSelectorArgs[0]) ? createSelectorArgs[0] : createSelectorArgs]. *)
Definition candidates (createSelectorArgs : list value) : list value :=
  let first := nth 0 createSelectorArgs VUndefined in
  if isArray first then elements first else createSelectorArgs.

(** [getDependencies(createSelectorArgs)] *)
Definition getDependencies (createSelectorArgs : list value)
  : outcome (list value) :=
  let dependencies := candidates createSelectorArgs in
  match assertIsArrayOfFunctions dependencies (Some getDependencies_message) with
  | Throw e => Throw e
  | Return _ => Return dependencies
  end.

(** [collectInputSelectorResults(dependencies, inputSelectorArgs)]: the
    [for] loop, [acc] being the array [inputSelectorResults] so far. *)
Fixpoint collect_from (dependencies : list Selector)
    (inputSelectorArgs : list value) (acc : list value)
  : Callback (list value) :=
  match dependencies with
  | [] => ret acc
  | dependency :: rest =>
      r <- dependency inputSelectorArgs ;;
      collect_from rest inputSelectorArgs (acc ++ [r])
  end.

Definition collectInputSelectorResults (dependencies : list Selector)
    (inputSelectorArgs : list value) : Callback (list value) :=
  collect_from dependencies inputSelectorArgs [].

Definition nl : string := String "010"%char EmptyString.

Definition stability_message : string :=
  "An input selector returned a different result when passed same arguments." ++
  nl ++ "This means your output selector will likely run more frequently than intended." ++
  nl ++ "Avoid returning a new reference inside your input selector, e.g." ++
  nl ++ "`createSelector([(arg1, arg2) => ({ arg1, arg2 })],(arg1, arg2) => {})`".

(** [runStabilityCheck({inputSelectorResults, inputSelectorResultsCopy},
    {memoize, memoizeOptions}, inputSelectorArgs)].  [memoize] stands for
    the memoizer applied to its options. *)
Definition runStabilityCheck
    (inputSelectorResults inputSelectorResultsCopy : list value)
    (memoize : Memoizer) (inputSelectorArgs : list value) : Callback unit :=
  scope (empty memoize)
    (let createAnEmptyObject :=
       memoized memoize whole (fun _ => call (new_object [])) in
     first <- createAnEmptyObject inputSelectorResults ;;
     second <- createAnEmptyObject inputSelectorResultsCopy ;;
     let areInputSelectorResultsEqual := strict_eq first second in
     if negb areInputSelectorResultsEqual
     then
       call (console_warn stability_message
               [("arguments", inputSelectorArgs);
                ("firstInputs", inputSelectorResults);
                ("secondInputs", inputSelectorResultsCopy)])
     else ret tt).

Definition identity_message : string :=
  "The result function returned its own inputs without modification. e.g" ++
  nl ++ "`createSelector([state => state.todos], todos => todos)`" ++
  nl ++ "This could lead to inefficient memoization and unnecessary re-renders." ++
  nl ++ "Ensure transformation logic is in the result function, and extraction logic is in the input selectors.".

(** [runIdentityFunctionCheck(resultFunc)] *)
Definition runIdentityFunctionCheck (resultFunc : Func) : Callback unit :=
  isInputSameAsOutput <-
    try_catch
      (emptyObject <- new_object [] ;;
       out <- resultFunc [emptyObject] ;;
       if strict_eq out emptyObject then ret true else ret false)
      (fun _ => ret false) ;;
  if (isInputSameAsOutput : bool)
  then console_warn identity_message []
  else ret tt.

Inductive DevModeCheckFrequency : Type := always | once | never.

Definition frequency_eqb (a b : DevModeCheckFrequency) : bool :=
  match a, b with
  | always, always | once, once | never, never => true
  | _, _ => false
  end.

(** [shouldRunDevModeCheck(devModeCheckFrequency, firstRun)] *)
Definition shouldRunDevModeCheck (devModeCheckFrequency : DevModeCheckFrequency)
    (firstRun : bool) : bool :=
  frequency_eqb devModeCheckFrequency always
  || (frequency_eqb devModeCheckFrequency once && firstRun).

End Utils.


(* ================================================================== *)
(** ** The default memoizer *)

Module DefaultMemoize.

(** Modelled from the spec: the Cache Entry of the Default Memoizer, whose
    source file is not among the sources; the fields are those of the data
    model, [{lastArgs, lastResult, hasValue}]. *)
Record entry : Type := {
  hasValue : bool;
  lastArgs : list value;
  lastResult : value
}.

(** Modelled from the spec: the entry is absent until the first successful
    invocation. *)
Definition no_entry : entry :=
  {| hasValue := false; lastArgs := []; lastResult := VUndefined |}.

(** Modelled from the spec: the positional comparison of the current
    arguments with [lastArgs]; the predicate receives [(newValue, oldValue)]
    in that order, and the first mismatch decides. *)
Fixpoint all_equal (equalityCheck : EqualityFn) (args last : list value)
  : Callback bool :=
  match args, last with
  | [], [] => ret true
  | newValue :: args', oldValue :: last' =>
      same <- equalityCheck newValue oldValue ;;
      if (same : bool) then all_equal equalityCheck args' last' else ret false
  | _, _ => ret false
  end.

(** Modelled from the spec: step 1 of the Default Memoizer.  A call is a
    miss if no entry exists, or the argument count differs from the
    previous one, or the predicate is false at some position. *)
Definition is_hit (equalityCheck : EqualityFn) (e : entry) (args : list value)
  : Callback bool :=
  if negb (hasValue e) then ret false
  else if negb (Nat.eqb (List.length args) (List.length (lastArgs e))) then ret false
  else all_equal equalityCheck args (lastArgs e).

(** Modelled from the spec: steps 2 and 3 of the Default Memoizer, whose
    source file is not among the sources.  On a miss [fn] is invoked; if it
    returns, the entry becomes [{lastArgs: args, lastResult: r}]; if it
    throws, the entry is not touched.  On a hit [lastResult] is returned
    without invoking [fn].  The arguments compared next are those of the
    immediately preceding call, so a hit records its arguments too (the
    test "exported memoize passes correct objects to equalityCheck" relies
    on it). *)
Definition memoizedFn {C} (equalityCheck : EqualityFn) (cache : lens C entry)
    (fn : list value -> M C value) (args : list value) : M C value :=
  e <- load (view cache) ;;
  hit <- call (is_hit equalityCheck e args) ;;
  if (hit : bool)
  then
    store (update cache
             {| hasValue := true; lastArgs := args; lastResult := lastResult e |}) ;;
    ret (lastResult e)
  else
    r <- fn args ;;
    store (update cache
             {| hasValue := true; lastArgs := args; lastResult := r |}) ;;
    ret r.

(** Modelled from the spec: clearing drops [hasValue] to false. *)
Definition clear (e : entry) : entry :=
  {| hasValue := false; lastArgs := lastArgs e; lastResult := lastResult e |}.

(** Modelled from the spec: [defaultMemoize(fn, equalityPredicate?)]; the
    default predicate is reference equality. *)
Definition defaultMemoize (equalityCheck : option EqualityFn) : Memoizer :=
  {| slot := entry;
     empty := no_entry;
     memoized := fun C cache fn =>
       memoizedFn
         (match equalityCheck with
          | Some f => f
          | None => defaultEqualityCheck
          end) cache fn;
     clearCache := clear |}.

End DefaultMemoize.
Import DefaultMemoize.

(* ================================================================== *)
(** ** The selector factory *)

Module Selector.
Import Utils.

(** The options of [createSelector] ([CreateSelectorOptions] of
    [src/types.ts]).  [memoize] and [argsMemoize] stand for the memoizers
    applied to [memoizeOptions] and [argsMemoizeOptions]; [development]
    is [process.env.NODE_ENV !== 'production'].
    Modelled from the spec: [identityFunctionCheck], the trigger frequency
    of the identity-function check, which the interface of [src/types.ts]
    does not list. *)
Record CreateSelectorOptions : Type := {
  memoize : Memoizer;
  argsMemoize : Memoizer;
  inputStabilityCheck : DevModeCheckFrequency;
  identityFunctionCheck : DevModeCheckFrequency;
  development : bool
}.

(** Modelled from the spec: what an Output Selector holds besides its
    dependency list and combiner: the recomputation counter, the most
    recent combiner output, and the cache slots of its two memoizers;
    [firstRun] serves the ['once'] frequency of the diagnostics. *)
Record closure (o : CreateSelectorOptions) : Type := {
  recomputations : nat;
  lastResult : value;
  firstRun : bool;
  resultCache : slot (memoize o);
  argsCache : slot (argsMemoize o)
}.
Arguments recomputations {o} _.
Arguments lastResult {o} _.
Arguments firstRun {o} _.
Arguments resultCache {o} _.
Arguments argsCache {o} _.

Section createSelector.

Variable dependencies : list Selector.
Variable resultFunc : Func.
Variable o : CreateSelectorOptions.

(** Modelled from the spec: a selector as [createSelector] returns it:
    counter at 0, no last result, both slots empty. *)
Definition created : closure o :=
  {| recomputations := 0; lastResult := VUndefined; firstRun := true;
     resultCache := empty (memoize o); argsCache := empty (argsMemoize o) |}.

Definition set_recomputations (n : nat) (c : closure o) : closure o :=
  {| recomputations := n; lastResult := lastResult c; firstRun := firstRun c;
     resultCache := resultCache c; argsCache := argsCache c |}.

Definition set_lastResult (v : value) (c : closure o) : closure o :=
  {| recomputations := recomputations c; lastResult := v; firstRun := firstRun c;
     resultCache := resultCache c; argsCache := argsCache c |}.

Definition set_firstRun (b : bool) (c : closure o) : closure o :=
  {| recomputations := recomputations c; lastResult := lastResult c; firstRun := b;
     resultCache := resultCache c; argsCache := argsCache c |}.

Definition set_resultCache (s : slot (memoize o)) (c : closure o) : closure o :=
  {| recomputations := recomputations c; lastResult := lastResult c;
     firstRun := firstRun c; resultCache := s; argsCache := argsCache c |}.

Definition set_argsCache (s : slot (argsMemoize o)) (c : closure o) : closure o :=
  {| recomputations := recomputations c; lastResult := lastResult c;
     firstRun := firstRun c; resultCache := resultCache c; argsCache := s |}.

Definition the_resultCache : lens (closure o) (slot (memoize o)) :=
  {| view := resultCache; update := set_resultCache |}.

Definition the_argsCache : lens (closure o) (slot (argsMemoize o)) :=
  {| view := argsCache; update := set_argsCache |}.

(** Modelled from the spec: the function handed to [memoize]; every
    invocation of the combiner at this tier counts as a recomputation, also
    when the combiner then throws. *)
Definition recomputationWrapper (args : list value) : M (closure o) value :=
  store (fun c => set_recomputations (S (recomputations c)) c) ;;
  call (resultFunc args).

(** Modelled from the spec: [memoizedCombine = memoize(combiner, ...memoizeOptions)]. *)
Definition memoizedResultFunc : list value -> M (closure o) value :=
  memoized (memoize o) the_resultCache recomputationWrapper.

(** Modelled from the spec: the two development diagnostics of one call,
    run after the extractor results are collected, each when its frequency
    says so.  Stability check: every extractor is invoked a second time
    with the same arguments and the two result sequences are handed to
    [runStabilityCheck].  Identity-function check: the combiner is probed
    by [runIdentityFunctionCheck]. *)
Definition devModeChecks (inputSelectorResults args : list value)
  : M (closure o) unit :=
  if development o
  then
    first <- load firstRun ;;
    (if shouldRunDevModeCheck (inputStabilityCheck o) first
     then
       inputSelectorResultsCopy <-
         call (collectInputSelectorResults dependencies args) ;;
       call (runStabilityCheck inputSelectorResults inputSelectorResultsCopy
               (memoize o) args)
     else ret tt) ;;
    (if shouldRunDevModeCheck (identityFunctionCheck o) first
     then call (runIdentityFunctionCheck resultFunc)
     else ret tt) ;;
    store (set_firstRun false)
  else ret tt.

(** Modelled from the spec: [rawSelectorBody(state, ...params)]: run every
    extractor in declaration order, then call [memoizedCombine] with the
    results as positional arguments. *)
Definition rawSelectorBody (args : list value) : M (closure o) value :=
  inputSelectorResults <- call (collectInputSelectorResults dependencies args) ;;
  devModeChecks inputSelectorResults args ;;
  r <- memoizedResultFunc inputSelectorResults ;;
  store (set_lastResult r) ;;
  ret r.

(** Modelled from the spec: the output selector,
    [argsMemoize(rawSelectorBody, ...argsMemoizeOptions)]. *)
Definition selector : list value -> M (closure o) value :=
  memoized (argsMemoize o) the_argsCache rawSelectorBody.

(** Modelled from the spec: [resetRecomputations()] zeroes the counter and
    clears both memoizer cache slots. *)
Definition resetRecomputations : M (closure o) nat :=
  store (fun c =>
           set_argsCache (clearCache (argsMemoize o) (argsCache c))
             (set_resultCache (clearCache (memoize o) (resultCache c))
                (set_recomputations 0 c))) ;;
  ret 0.

End createSelector.

(** Modelled from the spec: the options of a selector that uses the Default
    Memoizer at both tiers, with the given equality predicates. *)
Definition default_options (resultEquality argsEquality : EqualityFn)
    (stability identity : DevModeCheckFrequency) (dev : bool)
  : CreateSelectorOptions :=
  {| memoize := defaultMemoize (Some resultEquality);
     argsMemoize := defaultMemoize (Some argsEquality);
     inputStabilityCheck := stability;
     identityFunctionCheck := identity;
     development := dev |}.

(** Modelled from the spec: the defaults of [createSelector]: the default
    memoizer with its default predicate at both tiers. *)
Definition createSelector_defaults (stability identity : DevModeCheckFrequency)
    (dev : bool) : CreateSelectorOptions :=
  {| memoize := defaultMemoize None;
     argsMemoize := defaultMemoize None;
     inputStabilityCheck := stability;
     identityFunctionCheck := identity;
     development := dev |}.

(** Modelled from the spec: [createSelector] without options; each
    diagnostic runs once, on the first run. *)
Definition createSelector_options : CreateSelectorOptions :=
  createSelector_defaults once once true.

(** Modelled from the spec: the combiner of a structured selector re-zips
    the keys, in the same order, onto the extractor results. *)
Definition structuredCombiner (objectKeys : list string) : Func :=
  fun values => new_object (combine objectKeys values).

(** Modelled from the spec: [createStructuredSelector(shape)]; the shape is
    the mapping in enumeration order, its values are the dependency list. *)
Definition structuredSelector (shape : list (string * Selector))
    (o : CreateSelectorOptions) : list value -> M (closure o) value :=
  selector (map snd shape) (structuredCombiner (map fst shape)) o.

End Selector.

(* ================================================================== *)
(** ** Vocabulary of the properties *)

Module Spec.

(** A total, side-effect-free function whose invocations are written into
    the journal under [name]. *)
Definition observed (name : string) (f : list value -> value) : Func :=
  traced name (fun args => Return (f args)).

(** The world after [es] was appended to the journal. *)
Definition journal_add (es : list event) (w : world) : world :=
  {| next_ref := next_ref w; console := console w; journal := journal w ++ es |}.

(** [xs] and [ys] have the same length and [eq xs[i] ys[i]] holds at every
    position. *)
Fixpoint positionally (eq : value -> value -> bool) (xs ys : list value) : bool :=
  match xs, ys with
  | [], [] => true
  | x :: xs', y :: ys' => eq x y && positionally eq xs' ys'
  | _, _ => false
  end.

(** Whether the default memoizer serves [args] from the entry [e]. *)
Definition hit (eq : value -> value -> bool) (e : entry) (args : list value) : bool :=
  hasValue e && positionally eq args (lastArgs e).

(** The consultations of the predicate made while comparing [args] with
    [last]: position by position, up to the first mismatch. *)
Fixpoint consulted (eq : value -> value -> bool) (args last : list value)
  : list event :=
  match args, last with
  | a :: args', b :: last' =>
      EqualityCheck a b :: (if eq a b then consulted eq args' last' else [])
  | _, _ => []
  end.

(** The consultations made by one call of the memoized function. *)
Definition consultations (eq : value -> value -> bool) (e : entry)
    (args : list value) : list event :=
  if hasValue e && Nat.eqb (List.length args) (List.length (lastArgs e))
  then consulted eq args (lastArgs e)
  else [].

(** The extractors run one after the other, left to right, each in the
    world left by the previous one; the first failure ends the run. *)
Fixpoint in_order (dependencies : list Selector) (args : list value)
  : Callback (list value) :=
  match dependencies with
  | [] => ret []
  | dependency :: rest =>
      r <- dependency args ;;
      rs <- in_order rest args ;;
      ret (r :: rs)
  end.

(** A dependency list of named, total, side-effect-free extractors, each
    writing its invocations into the journal. *)
Definition observed_all (deps : list (string * (list value -> value)))
  : list Selector :=
  map (fun d => observed (fst d) (snd d)) deps.

(** The results of side-effect-free extractors on [args]. *)
Definition extracted (exts : list (list value -> value)) (args : list value)
  : list value :=
  map (fun e => e args) exts.

(** How many times the function [name] was invoked according to a journal. *)
Fixpoint invocations (name : string) (j : list event) : nat :=
  match j with
  | [] => 0
  | Invoked n _ :: rest =>
      (if String.eqb n name then 1 else 0) + invocations name rest
  | _ :: rest => invocations name rest
  end.

(** Calls made one after the other, with their outcomes. *)
Fixpoint replay {C} (fn : list value -> M C value)
    (history : list (list value)) (s : C * world)
  : list (outcome value) * (C * world) :=
  match history with
  | [] => ([], s)
  | args :: rest =>
      match fn args s with
      | (r, s1) =>
          match replay fn rest s1 with
          | (rs, s2) => (r :: rs, s2)
          end
      end
  end.

(** The arguments of the most recent call of a history that returned. *)
Fixpoint last_returned (history : list (list value))
    (outcomes : list (outcome value)) : option (list value) :=
  match history, outcomes with
  | args :: history', r :: outcomes' =>
      match last_returned history' outcomes' with
      | Some later => Some later
      | None => if returned r then Some args else None
      end
  | _, _ => None
  end.

(** The default memoizer used on its own, as [defaultMemoize(f, eq)], with
    a side-effect-free [f] and a predicate that journals its consultations. *)
Definition standalone (eq : value -> value -> bool)
    (f : list value -> outcome value) : list value -> M entry value :=
  memoized (defaultMemoize (Some (traced_eq eq))) whole
    (fun args => call (partial f args)).

(** The combiner of the test "memoizes previous result before exception":
    [a => { if (a > 1) throw Error('test error'); return a }]. *)
Definition throws_above_one (args : list value) : outcome value :=
  match args with
  | VNumber a :: _ => if (1 <? a)%Z then Throw (Error "test error")
                      else Return (VNumber a)
  | a :: _ => Return a
  | [] => Return VUndefined
  end.

(** The function [runStabilityCheck] memoizes and throws away. *)
Definition createAnEmptyObject (memoize : Memoizer)
  : list value -> M (slot memoize) value :=
  memoized memoize whole (fun _ => call (new_object [])).

(** The world after the warning of [runStabilityCheck]. *)
Definition warned (results copy args : list value) (w : world) : world :=
  {| next_ref := next_ref w;
     console := console w ++
       [{| message := Utils.stability_message;
           data := [("arguments", args); ("firstInputs", results);
                    ("secondInputs", copy)] |}];
     journal := journal w |}.

(** The world after [n] objects were allocated. *)
Definition allocated (n : nat) (w : world) : world :=
  {| next_ref := n + next_ref w; console := console w; journal := journal w |}.

(** [v[key]], which throws on [undefined] and [null]. *)
Definition property_of (v : value) (key : string) : outcome value :=
  match v with
  | VUndefined =>
      Throw (TypeError ("Cannot read properties of undefined (reading '" ++ key ++ "')"))
  | VNull =>
      Throw (TypeError ("Cannot read properties of null (reading '" ++ key ++ "')"))
  | _ => Return (get v key)
  end.

(** The equality predicate [(a, b) => a.id === b.id]. *)
Definition sameId : EqualityFn :=
  fun a b =>
    x <- lift (property_of a "id") ;;
    y <- lift (property_of b "id") ;;
    ret (strict_eq x y).

(** The world after the stability check of a call whose extractors are
    side-effect free, under the default memoizer with predicate [eq]. *)
Definition after_checks (eq : value -> value -> bool)
    (stability : Utils.DevModeCheckFrequency) (dev : bool)
    (results args : list value) (first : bool) (w : world) : world :=
  if dev && Utils.shouldRunDevModeCheck stability first
  then
    if positionally eq results results then allocated 1 w
    else warned results results args (allocated 2 w)
  else w.

(** The options of a selector whose two tiers use the default memoizer
    with the side-effect-free predicates [resEq] (results) and [argsEq]
    (arguments): its configured equality policy. *)
Definition policy (resEq argsEq : value -> value -> bool)
    (stability identity : Utils.DevModeCheckFrequency) (dev : bool)
  : Selector.CreateSelectorOptions :=
  Selector.default_options (pure_eq resEq) (pure_eq argsEq)
    stability identity dev.

(** A side-effect-free function that always returns, as one that may
    throw. *)
Definition total (f : list value -> value) : list value -> outcome value :=
  fun args => Return (f args).

(** The results of side-effect-free extractors that may throw: the first
    failure is the outcome. *)
Fixpoint extract_all (exts : list (list value -> outcome value))
    (args : list value) : outcome (list value) :=
  match exts with
  | [] => Return []
  | e :: rest =>
      match e args with
      | Throw x => Throw x
      | Return r =>
          match extract_all rest args with
          | Throw x => Throw x
          | Return rs => Return (r :: rs)
          end
      end
  end.

(** A selector built from side-effect-free extractors that may throw and
    a combiner [f] that journals its invocations as ["resultFunc"]. *)
Definition built_from (exts : list (list value -> outcome value))
    (f : list value -> outcome value) (o : Selector.CreateSelectorOptions)
  : list value -> M (Selector.closure o) value :=
  Selector.selector (map partial exts) (traced "resultFunc" f) o.

(** Whether the identity-function probe is due on a run. *)
Definition probe_due (identity : Utils.DevModeCheckFrequency) (dev first : bool)
  : nat :=
  if dev && Utils.shouldRunDevModeCheck identity first then 1 else 0.

(** How many identity-function probes two successive calls can make. *)
Definition probe_budget (identity : Utils.DevModeCheckFrequency)
    (dev first : bool) : nat :=
  if dev
  then match identity with
       | Utils.always => 2
       | Utils.once => if first then 1 else 0
       | Utils.never => 0
       end
  else 0.

(** The world after the identity-function check of a run. *)
Definition after_probe (resultFunc : Func)
    (identity : Utils.DevModeCheckFrequency) (dev first : bool) (w : world)
  : world :=
  if dev && Utils.shouldRunDevModeCheck identity first
  then snd (Utils.runIdentityFunctionCheck resultFunc w)
  else w.


(** A selector built from side-effect-free extractors and a combiner [f]
    that journals its invocations as ["resultFunc"]. *)
Definition built (exts : list (list value -> value))
    (f : list value -> outcome value) (o : Selector.CreateSelectorOptions)
  : list value -> M (Selector.closure o) value :=
  Selector.selector (map pure exts) (traced "resultFunc" f) o.

(** The invocations of the combiner so far. *)
Definition combiner_calls (w : world) : nat :=
  invocations "resultFunc" (journal w).

(** The states an output selector can be in: as created, after a call,
    after [resetRecomputations()], and after other code changed the world. *)
Inductive reachable (o : Selector.CreateSelectorOptions)
    (sel : list value -> M (Selector.closure o) value)
  : Selector.closure o * world -> Prop :=
| reach_created (w : world) : reachable o sel (Selector.created o, w)
| reach_call (args : list value) (s : Selector.closure o * world) :
    reachable o sel s -> reachable o sel (snd (sel args s))
| reach_reset (s : Selector.closure o * world) :
    reachable o sel s ->
    reachable o sel (snd (Selector.resetRecomputations o s))
| reach_world (c : Selector.closure o) (w w' : world) :
    reachable o sel (c, w) -> reachable o sel (c, w').

(** A shape whose selectors are side-effect free and always return. *)
Definition pure_shape (shape : list (string * (list value -> value)))
  : list (string * Selector) :=
  map (fun kv => (fst kv, pure (snd kv))) shape.

(** What the two tiers of a structured selector hold: the argument tier
    agrees with the result tier, whose result is an object that zips the
    keys onto the cached extractor results. *)
Definition consistent (keys : list string) (exts : list (list value -> value))
    (argsEntry resultEntry : entry) : Prop :=
  (hasValue argsEntry = true ->
   hasValue resultEntry = true /\
   DefaultMemoize.lastResult argsEntry = DefaultMemoize.lastResult resultEntry /\
   lastArgs resultEntry = extracted exts (lastArgs argsEntry)) /\
  (hasValue resultEntry = true ->
   exists l, DefaultMemoize.lastResult resultEntry
             = VObject l (combine keys (lastArgs resultEntry))).

(** [createStructuredSelector(shape)] for a side-effect-free shape, with
    the default selector factory. *)
Definition structured (shape : list (string * (list value -> value)))
    (stability identity : Utils.DevModeCheckFrequency) (dev : bool)
  : list value ->
    M (Selector.closure
         (Selector.createSelector_defaults stability identity dev)) value :=
  Selector.structuredSelector (pure_shape shape)
    (Selector.createSelector_defaults stability identity dev).

Definition initial_world : world :=
  {| next_ref := 0; console := []; journal := [] |}.

End Spec.
Import Spec.

(* ================================================================== *)
(** ** The fixtures of [test/test_selector.ts] *)

Module Fixtures.
Import Selector.

(** [state => state.a] and [state => state.b] *)
Definition selectA (args : list value) : value := get (hd VUndefined args) "a".
Definition selectB (args : list value) : value := get (hd VUndefined args) "b".

(** [a => a] *)
Definition identity (args : list value) : outcome value :=
  Return (hd VUndefined args).

(** [(a, b) => a + b] on numbers. *)
Definition sum (args : list value) : outcome value :=
  match args with
  | [VNumber a; VNumber b] => Return (VNumber (a + b))
  | _ => Return VUndefined
  end.

(** [() => { throw Error('test error') }] *)
Definition always_throws (_ : list value) : outcome value :=
  Throw (Error "test error").

(** [(a, b) => typeof a === typeof b] *)
Definition sameType (a b : value) : bool := String.eqb (typeof a) (typeof b).

(** [{ a: 1 }], [{ a: 2 }], ... at the reference [ref]. *)
Definition stateA (ref : loc) (a : Z) : value := VObject ref [("a", VNumber a)].
Definition stateAB (ref : loc) (a b : Z) : value :=
  VObject ref [("a", VNumber a); ("b", VNumber b)].

(** The results of a sequence of calls, each with the value of
    [recomputations()] read after it. *)
Definition observe {o} (sel : list value -> M (closure o) value)
    (history : list (list value)) : list (outcome value * nat) :=
  fst (fold_left
         (fun acc args =>
            match sel args (snd acc) with
            | (r, s') => (fst acc ++ [(r, recomputations (fst s'))], s')
            end)
         history ([], (created o, initial_world))).

End Fixtures.

(* ================================================================== *)
(** ** Further code of the sources *)

Module More.
Import Utils.

(** An array literal: a fresh reference. *)
Definition new_array (items : list value) : Callback value :=
  fun w =>
    (Return (VArray (next_ref w) items),
     {| next_ref := S (next_ref w); console := console w; journal := journal w |}).

(** [ensureIsArray(item)] as a value: [Array.isArray(item) ? item : [item]].
    An array is returned as it is, anything else is wrapped in a new
    array. *)
Definition ensureIsArrayValue (item : value) : Callback value :=
  if isArray item then ret item else new_array [item].

(** [customMemoize] of the test "custom memoize": [(f, a, b, c) => f].  The
    returned function is [f] itself and owns no state. *)
Definition customMemoize : Memoizer :=
  {| slot := unit;
     empty := tt;
     memoized := fun C _ fn => fn;
     clearCache := fun s => s |}.

(** A dependency list of named, side-effect-free extractors that may
    throw, each writing its invocations into the journal. *)
Definition traced_all (deps : list (string * (list value -> outcome value)))
  : list Selector :=
  map (fun d => traced (fst d) (snd d)) deps.

(** The world after the warning of [runIdentityFunctionCheck]. *)
Definition identity_warned (w : world) : world :=
  {| next_ref := next_ref w;
     console := console w ++ [{| message := identity_message; data := [] |}];
     journal := journal w |}.

(** How often a check of the given frequency runs over [n + 1] runs of a
    selector, of which only the first has [firstRun] set. *)
Definition runs (frequency : DevModeCheckFrequency) (n : nat) : nat :=
  List.length
    (filter (shouldRunDevModeCheck frequency) (true :: repeat false n)).

(** The options of a selector that uses [customMemoize] at both tiers, in
    production. *)
Definition customMemoize_options : Selector.CreateSelectorOptions :=
  {| Selector.memoize := customMemoize;
     Selector.argsMemoize := customMemoize;
     Selector.inputStabilityCheck := never;
     Selector.identityFunctionCheck := never;
     Selector.development := false |}.


End More.

(* ================================================================== *)
(** * Properties *)

(** ** Values *)

Module JSFacts.

Lemma strict_eq_sound : forall a b, strict_eq a b = true -> a = b.
Proof.
  fix IH 1.
  intros a b; destruct a; destruct b; simpl; intro H;
    try discriminate; try reflexivity.
  - apply Bool.eqb_prop in H; now subst.
  - apply Z.eqb_eq in H; now subst.
  - apply String.eqb_eq in H; now subst.
  - apply Nat.eqb_eq in H; now subst.
  - apply Z.eqb_eq in H; now subst.
  - apply andb_true_iff in H; destruct H as [Hr Hf].
    apply Nat.eqb_eq in Hr; subst ref0; f_equal.
    revert fields0 Hf.
    induction fields as [|[k x] xs IHxs]; intros [|[k' y] ys] Hf;
      try discriminate; try reflexivity.
    apply andb_true_iff in Hf; destruct Hf as [Hf Hrest].
    apply andb_true_iff in Hf; destruct Hf as [Hk Hx].
    apply String.eqb_eq in Hk; apply IH in Hx; subst.
    f_equal; now apply IHxs.
  - apply andb_true_iff in H; destruct H as [Hr Hf].
    apply Nat.eqb_eq in Hr; subst ref0; f_equal.
    revert items0 Hf.
    induction items as [|x xs IHxs]; intros [|y ys] Hf;
      try discriminate; try reflexivity.
    apply andb_true_iff in Hf; destruct Hf as [Hx Hrest].
    apply IH in Hx; subst.
    f_equal; now apply IHxs.
  - apply andb_true_iff in H; destruct H as [Hr Hn].
    apply Nat.eqb_eq in Hr; apply String.eqb_eq in Hn; now subst.
Qed.

Lemma strict_eq_refl : forall a, strict_eq a a = true.
Proof.
  fix IH 1.
  intros a; destruct a; simpl; try reflexivity.
  - apply Bool.eqb_reflx.
  - apply Z.eqb_refl.
  - apply String.eqb_refl.
  - apply Nat.eqb_refl.
  - apply Z.eqb_refl.
  - rewrite Nat.eqb_refl; simpl.
    induction fields as [|[k x] xs IHxs]; [reflexivity|].
    now rewrite String.eqb_refl, IH, IHxs.
  - rewrite Nat.eqb_refl; simpl.
    induction items as [|x xs IHxs]; [reflexivity|].
    now rewrite IH, IHxs.
  - now rewrite Nat.eqb_refl, String.eqb_refl.
Qed.

Lemma strict_eq_iff (a b : value) : strict_eq a b = true <-> a = b.
Proof.
  split; [apply strict_eq_sound | intros ->; apply strict_eq_refl].
Qed.

End JSFacts.

(** ** [src/utils.ts]: validation *)

Module UtilsFacts.
Import Utils.

Lemma typeof_function (v : value) :
  isFunction v = true <-> typeof v = "function".
Proof. unfold isFunction; apply String.eqb_eq. Qed.

Lemma assertIsArrayOfFunctions_spec (array : list value) (msg : option string) :
  assertIsArrayOfFunctions array msg =
  if forallb isFunction array then Return tt
  else Throw (TypeError
         (or_default msg
            "expected all items to be functions, instead received the following types: "
          ++ "[" ++ String.concat ", " (map itemType array) ++ "]")).
Proof.
  unfold assertIsArrayOfFunctions; now destruct (forallb isFunction array).
Qed.

Lemma getDependencies_spec (args : list value) :
  getDependencies args =
  if forallb isFunction (candidates args) then Return (candidates args)
  else Throw (TypeError
         (getDependencies_message ++ "["
          ++ String.concat ", " (map itemType (candidates args)) ++ "]")).
Proof.
  unfold getDependencies; rewrite assertIsArrayOfFunctions_spec.
  now destruct (forallb isFunction (candidates args)).
Qed.

Lemma not_all_functions (array : list value) :
  forallb isFunction array = false <->
  Exists (fun item => typeof item <> "function") array.
Proof.
  induction array as [|x xs IH]; simpl.
  - split; [discriminate | intro H; inversion H].
  - rewrite andb_false_iff, IH, Exists_cons.
    assert (isFunction x = false <-> typeof x <> "function") as ->.
    { rewrite <- typeof_function; destruct (isFunction x); split; congruence. }
    reflexivity.
Qed.

Lemma itemType_starts_with_typeof (item : value) :
  prefix (typeof item) (itemType item) = true.
Proof.
  destruct item; simpl; try reflexivity.
Qed.

(** C4, as stated, fails: a construction call with no candidate extractor
    passes the validation and yields the empty dependency list. *)
Lemma getDependencies_empty_not_rejected :
  candidates [] = [] /\ getDependencies [] = Return [] /\
  ~ (exists e, getDependencies [] = Throw e).
Proof.
  repeat split; intros [e H]; discriminate H.
Qed.

(** C4 (amended): the validation made at construction fails exactly when
    some candidate extractor is not callable; no minimum length is
    enforced, so an empty candidate list is accepted and becomes the
    empty dependency list. *)
Theorem getDependencies_fails_iff_not_callable (args : list value) :
  ((exists e, getDependencies args = Throw e) <->
   Exists (fun item => typeof item <> "function") (candidates args)) /\
  (getDependencies args = Return (candidates args) <->
   Forall (fun item => typeof item = "function") (candidates args)) /\
  (candidates args = [] -> getDependencies args = Return []).
Proof.
  rewrite getDependencies_spec.
  destruct (forallb isFunction (candidates args)) eqn:E.
  - split; [|split].
    + split.
      * intros [e H]; discriminate.
      * intro H; apply not_all_functions in H; congruence.
    + split; [|reflexivity].
      intros _; rewrite forallb_forall in E; apply Forall_forall.
      intros x Hx; now apply typeof_function, E.
    + now intros ->.
  - split; [|split].
    + split; [|eauto].
      intros _; now apply not_all_functions.
    + split; [discriminate|].
      intro H; exfalso.
      apply not_all_functions, Exists_exists in E.
      destruct E as (x & Hx & Hn); rewrite Forall_forall in H; auto.
    + intros H; rewrite H in E; discriminate.
Qed.

Lemma getDependencies_fails_iff_not_callable_witness :
  candidates [VArray 7 []] = [] /\ getDependencies [VArray 7 []] = Return [].
Proof.
  split; [reflexivity|].
  apply (getDependencies_fails_iff_not_callable [VArray 7 []]); reflexivity.
Defined.

(** C5: when some candidate extractor is not callable, construction throws
    a [TypeError] (no dependency list is produced); its message lists, in
    order, one description per candidate; every description starts with
    the [typeof] of its element, and the description of a non-callable
    element is exactly its [typeof]. *)
Theorem getDependencies_rejects_non_callable (args : list value) (item : value) :
  In item (candidates args) ->
  typeof item <> "function" ->
  getDependencies args =
    Throw (TypeError
      (getDependencies_message ++ "["
       ++ String.concat ", " (map itemType (candidates args)) ++ "]")) /\
  itemType item = typeof item /\
  Forall (fun x => prefix (typeof x) (itemType x) = true) (candidates args).
Proof.
  intros Hin Hty; split; [|split].
  - rewrite getDependencies_spec.
    assert (forallb isFunction (candidates args) = false) as ->; [|reflexivity].
    apply not_all_functions, Exists_exists; eauto.
  - destruct item; simpl in *; congruence.
  - apply Forall_forall; intros; apply itemType_starts_with_typeof.
Qed.

Lemma getDependencies_rejects_non_callable_witness :
  getDependencies [VFunction 1 "selectA"; VString "not a function"; VFunction 2 ""] =
  Throw (TypeError
    "createSelector expects all input-selectors to be functions, but received the following types: [function selectA(), string, function unnamed()]").
Proof.
  apply (getDependencies_rejects_non_callable
           [VFunction 1 "selectA"; VString "not a function"; VFunction 2 ""]
           (VString "not a function")).
  - simpl; auto.
  - simpl; discriminate.
Defined.

(** C10: [assertIsObject] throws a [TypeError] exactly when the [typeof] of
    its argument is not ['object']; [null], whose [typeof] is ['object'],
    passes. *)
Theorem assertIsObject_iff_typeof_object (object : value) (msg : option string) :
  ((exists m, assertIsObject object msg = Throw (TypeError m)) <->
   typeof object <> "object") /\
  (assertIsObject object msg = Return tt <-> typeof object = "object") /\
  typeof VNull = "object" /\
  assertIsObject VNull msg = Return tt.
Proof.
  unfold assertIsObject.
  destruct (String.eqb_spec (typeof object) "object") as [E|E]; simpl.
  - repeat split; auto; try congruence.
    intros [m H]; discriminate.
  - repeat split; eauto; try congruence; discriminate.
Qed.

(** *** [collectInputSelectorResults] *)

Lemma journal_add_nil (w : world) : journal_add [] w = w.
Proof. destruct w; unfold journal_add; simpl; now rewrite app_nil_r. Qed.

Lemma journal_add_app (xs ys : list event) (w : world) :
  journal_add ys (journal_add xs w) = journal_add (xs ++ ys) w.
Proof. unfold journal_add; simpl; now rewrite app_assoc. Qed.

(** The loop that pushes onto [inputSelectorResults] is the left-to-right
    sequencing of the extractors, whatever their effects. *)
Lemma collect_from_in_order (deps : list Selector) (args : list value) :
  forall acc w,
    collect_from deps args acc w =
    match in_order deps args w with
    | (Return rs, w') => (Return (acc ++ rs), w')
    | (Throw e, w') => (Throw e, w')
    end.
Proof.
  induction deps as [|d rest IH]; intros acc w; simpl.
  - unfold ret; now rewrite app_nil_r.
  - unfold bind.
    destruct (d args w) as [[r|e] w1]; [|reflexivity].
    rewrite IH.
    destruct (in_order rest args w1) as [[rs|e] w2]; [|reflexivity].
    unfold ret; now rewrite <- app_assoc.
Qed.

Lemma in_order_observed (deps : list (string * (list value -> value)))
    (args : list value) :
  forall w,
    in_order (observed_all deps) args w =
    (Return (map (fun d => snd d args) deps),
     journal_add (map (fun d => Invoked (fst d) args) deps) w).
Proof.
  induction deps as [|[name f] rest IH]; intros w; simpl.
  - now rewrite journal_add_nil.
  - unfold bind at 1; unfold observed at 1, traced, record, lift, bind; simpl.
    unfold bind; rewrite IH; unfold ret; f_equal.
    unfold journal_add; simpl; now rewrite <- app_assoc.
Qed.

Lemma in_order_pure (exts : list (list value -> value)) (args : list value) :
  forall w,
    in_order (map pure exts) args w =
    (Return (map (fun e => e args) exts), w).
Proof.
  induction exts as [|f rest IH]; intros w; simpl; [reflexivity|].
  unfold bind, pure at 1, ret; now rewrite IH.
Qed.

Lemma collect_pure (exts : list (list value -> value)) (args : list value)
    (w : world) :
  collectInputSelectorResults (map pure exts) args w =
  (Return (map (fun e => e args) exts), w).
Proof.
  unfold collectInputSelectorResults.
  now rewrite collect_from_in_order, in_order_pure.
Qed.

Lemma collect_is_in_order (deps : list Selector) (args : list value)
    (w : world) :
  collectInputSelectorResults deps args w = in_order deps args w.
Proof.
  unfold collectInputSelectorResults; rewrite collect_from_in_order.
  destruct (in_order deps args w) as [[rs|e] w']; reflexivity.
Qed.

(** C6: [collectInputSelectorResults(deps, args)] invokes the extractors in
    increasing index order: whatever they do, it is their left-to-right
    sequencing; for extractors that return, the journal receives their
    invocations in the declared order, each with [args], and the result is
    a sequence as long as [deps] whose i-th element is the result of
    [deps[i]] applied to [args]. *)
Theorem collectInputSelectorResults_in_declared_order
    (deps : list (string * (list value -> value))) (args : list value)
    (w : world) :
  let results := map (fun d => snd d args) deps in
  (forall (any : list Selector) (w0 : world),
      collectInputSelectorResults any args w0 = in_order any args w0) /\
  collectInputSelectorResults (observed_all deps) args w =
    (Return results,
     journal_add (map (fun d => Invoked (fst d) args) deps) w) /\
  List.length results = List.length deps /\
  (forall i d, nth_error deps i = Some d ->
               nth_error results i = Some (snd d args)).
Proof.
  intros results; split; [|split; [|split]].
  - intros any w0; apply collect_is_in_order.
  - unfold collectInputSelectorResults.
    now rewrite collect_from_in_order, in_order_observed.
  - apply length_map.
  - intros i d H; unfold results.
    now rewrite nth_error_map, H.
Qed.

End UtilsFacts.

(** ** The default memoizer *)

Module MemoizeFacts.

Lemma positionally_length eq xs : forall ys,
  positionally eq xs ys = true -> List.length xs = List.length ys.
Proof.
  induction xs as [|x xs IH]; intros [|y ys] H; simpl in *;
    try discriminate; try reflexivity.
  apply andb_true_iff in H; f_equal; now apply IH.
Qed.

Lemma positionally_length_neq eq xs ys :
  Nat.eqb (List.length xs) (List.length ys) = false ->
  positionally eq xs ys = false.
Proof.
  intro H; destruct (positionally eq xs ys) eqn:E; [|reflexivity].
  apply positionally_length in E; rewrite E, Nat.eqb_refl in H; discriminate.
Qed.

Lemma positionally_strict_eq xs ys :
  positionally strict_eq xs ys = true <-> xs = ys.
Proof.
  revert ys; induction xs as [|x xs IH]; intros [|y ys]; simpl;
    try (split; (discriminate || reflexivity)).
  rewrite andb_true_iff, JSFacts.strict_eq_iff, IH.
  split; [intros [-> ->]; reflexivity | intros [= -> ->]; auto].
Qed.

Lemma all_equal_traced eq args : forall last w,
  all_equal (traced_eq eq) args last w =
  (Return (positionally eq args last), journal_add (consulted eq args last) w).
Proof.
  induction args as [|a args IH]; intros [|b last] w; simpl;
    try (now rewrite UtilsFacts.journal_add_nil).
  unfold bind, traced_eq at 1, record, ret; simpl; unfold bind; simpl.
  destruct (eq a b); simpl.
  - rewrite IH; f_equal.
    unfold journal_add; simpl; now rewrite <- app_assoc.
  - reflexivity.
Qed.

Lemma all_equal_pure eq args : forall last w,
  all_equal (pure_eq eq) args last w = (Return (positionally eq args last), w).
Proof.
  induction args as [|a args IH]; intros [|b last] w; simpl; try reflexivity.
  unfold bind, pure_eq at 1, ret.
  destruct (eq a b); simpl; [apply IH | reflexivity].
Qed.

Lemma is_hit_pure eq e args w :
  is_hit (pure_eq eq) e args w = (Return (hit eq e args), w).
Proof.
  unfold is_hit, hit.
  destruct (hasValue e); simpl; [|reflexivity].
  destruct (Nat.eqb (List.length args) (List.length (lastArgs e))) eqn:E; simpl.
  - apply all_equal_pure.
  - now rewrite positionally_length_neq.
Qed.

Lemma is_hit_traced eq e args w :
  is_hit (traced_eq eq) e args w =
  (Return (hit eq e args), journal_add (consultations eq e args) w).
Proof.
  unfold is_hit, hit, consultations.
  destruct (hasValue e); simpl; [|now rewrite UtilsFacts.journal_add_nil].
  destruct (Nat.eqb (List.length args) (List.length (lastArgs e))) eqn:E; simpl.
  - apply all_equal_traced.
  - now rewrite positionally_length_neq, UtilsFacts.journal_add_nil.
Qed.

(** One call of the memoized function, given what the comparison yields. *)
Lemma memoizedFn_step {C} (equalityCheck : EqualityFn) (cache : lens C entry)
    (fn : list value -> M C value) (args : list value) (c : C) (w w1 : world)
    (b : bool) :
  is_hit equalityCheck (view cache c) args w = (Return b, w1) ->
  memoizedFn equalityCheck cache fn args (c, w) =
  if b
  then (Return (lastResult (view cache c)),
        (update cache {| hasValue := true; lastArgs := args;
                         lastResult := lastResult (view cache c) |} c, w1))
  else match fn args (c, w1) with
       | (Return r, (c', w')) =>
           (Return r,
            (update cache {| hasValue := true; lastArgs := args;
                             lastResult := r |} c', w'))
       | (Throw x, s') => (Throw x, s')
       end.
Proof.
  intro H; unfold memoizedFn, bind, load, gets, call, zoom; simpl.
  rewrite H; simpl.
  destruct b; [reflexivity|].
  destruct (fn args (c, w1)) as [[r|x] [c' w']]; reflexivity.
Qed.

Lemma standalone_step eq f args e w :
  standalone eq f args (e, w) =
  let w1 := journal_add (consultations eq e args) w in
  if hit eq e args
  then (Return (lastResult e),
        ({| hasValue := true; lastArgs := args; lastResult := lastResult e |}, w1))
  else match f args with
       | Return r =>
           (Return r, ({| hasValue := true; lastArgs := args; lastResult := r |}, w1))
       | Throw x => (Throw x, (e, w1))
       end.
Proof.
  unfold standalone; simpl.
  rewrite (memoizedFn_step (traced_eq eq) whole _ args e w _ _
             (is_hit_traced eq e args w)); simpl.
  destruct (hit eq e args); [reflexivity|].
  unfold call, zoom, partial, lift; simpl.
  destruct (f args); reflexivity.
Qed.

(** The entry holds the arguments of the most recent call that returned. *)
Lemma entry_tracks_last_returned eq f history :
  forall e0 w0 outs e w,
    replay (standalone eq f) history (e0, w0) = (outs, (e, w)) ->
    match last_returned history outs with
    | Some prev => hasValue e = true /\ lastArgs e = prev
    | None => e = e0
    end.
Proof.
  induction history as [|args rest IH]; intros e0 w0 outs e w H; simpl in H.
  - injection H as <- <- <-; reflexivity.
  - destruct (standalone eq f args (e0, w0)) as [r [e1 w1]] eqn:Hstep.
    destruct (replay (standalone eq f) rest (e1, w1)) as [rs [e2 w2]] eqn:Hrest.
    injection H as <- <- <-.
    apply IH in Hrest; simpl.
    destruct (last_returned rest rs); [exact Hrest|subst e2].
    rewrite standalone_step in Hstep; simpl in Hstep.
    destruct (hit eq e0 args).
    + injection Hstep as <- <- <-; simpl; auto.
    + destruct (f args); injection Hstep as <- <- <-; simpl; auto.
Qed.

Lemma consulted_positions eq a b args : forall last,
  In (EqualityCheck a b) (consulted eq args last) ->
  exists i, nth_error args i = Some a /\ nth_error last i = Some b.
Proof.
  induction args as [|x args IH]; intros [|y last] H; simpl in H;
    try contradiction.
  destruct H as [H|H].
  - injection H as -> ->; exists 0; auto.
  - destruct (eq x y); [|contradiction].
    destruct (IH _ H) as (i & Ha & Hb); exists (S i); auto.
Qed.

(** C7, as stated, fails: the first call returns, the second throws, and
    the third call hands the predicate the argument of the first call,
    which is not the immediately preceding one. *)
Lemma equality_consulted_against_earlier_call :
  let f := standalone strict_eq throws_above_one in
  let '(outs, s) := replay f [[VNumber 1]; [VNumber 2]] (no_entry, initial_world) in
  let '(r, (_, w')) := f [VNumber 1] s in
  outs = [Return (VNumber 1); Throw (Error "test error")] /\
  r = Return (VNumber 1) /\
  journal w' = journal (snd s) ++ [EqualityCheck (VNumber 1) (VNumber 1)] /\
  ~ (exists i, nth_error [VNumber 2] i = Some (VNumber 1)).
Proof.
  vm_compute; repeat split.
  intros [[|[|i]] H]; discriminate H.
Qed.

(** C7 (amended): whenever the default memoizer consults the equality
    predicate it passes the current call's argument first and, second, the
    positionally corresponding argument of the most recent earlier call
    that returned normally (a call that threw is skipped); the predicate
    is never handed an argument of any other call. *)
Theorem equality_consulted_against_last_returned_call
    (eq : value -> value -> bool) (f : list value -> outcome value)
    (history : list (list value)) (args : list value) (w0 : world)
    (outs : list (outcome value)) (e e' : entry) (w w' : world)
    (r : outcome value) :
  replay (standalone eq f) history (no_entry, w0) = (outs, (e, w)) ->
  standalone eq f args (e, w) = (r, (e', w')) ->
  exists checks,
    journal w' = journal w ++ checks /\
    forall a b, In (EqualityCheck a b) checks ->
      exists i prev,
        last_returned history outs = Some prev /\
        nth_error args i = Some a /\ nth_error prev i = Some b.
Proof.
  intros Hhist Hcall.
  apply entry_tracks_last_returned in Hhist.
  exists (consultations eq e args); split.
  - rewrite standalone_step in Hcall; simpl in Hcall.
    destruct (hit eq e args); [|destruct (f args)];
      injection Hcall as <- <- <-; reflexivity.
  - intros a b Hin; unfold consultations in Hin.
    destruct (hasValue e) eqn:Hv; simpl in Hin; [|contradiction].
    destruct (Nat.eqb _ _); [|contradiction].
    apply consulted_positions in Hin; destruct Hin as (i & Ha & Hb).
    destruct (last_returned history outs) as [prev|].
    + destruct Hhist as [_ <-]; eauto.
    + subst e; discriminate.
Qed.

Lemma equality_consulted_against_last_returned_call_witness :
  exists checks,
    [EqualityCheck (VNumber 2) (VNumber 1); EqualityCheck (VNumber 1) (VNumber 1)]
      = [EqualityCheck (VNumber 2) (VNumber 1)] ++ checks /\
    forall a b, In (EqualityCheck a b) checks ->
      exists i prev,
        Some [VNumber 1] = Some prev /\
        nth_error [VNumber 1] i = Some a /\ nth_error prev i = Some b.
Proof.
  apply (equality_consulted_against_last_returned_call strict_eq throws_above_one
           [[VNumber 1]; [VNumber 2]] [VNumber 1] initial_world
           [Return (VNumber 1); Throw (Error "test error")]
           {| hasValue := true; lastArgs := [VNumber 1]; lastResult := VNumber 1 |}
           {| hasValue := true; lastArgs := [VNumber 1]; lastResult := VNumber 1 |}
           {| next_ref := 0; console := [];
              journal := [EqualityCheck (VNumber 2) (VNumber 1)] |}
           {| next_ref := 0; console := [];
              journal := [EqualityCheck (VNumber 2) (VNumber 1);
                          EqualityCheck (VNumber 1) (VNumber 1)] |}
           (Return (VNumber 1))); reflexivity.
Defined.

End MemoizeFacts.

(** ** [src/utils.ts]: the stability check *)

Module StabilityFacts.
Import Utils Selector.

(** [runStabilityCheck] in terms of the two calls of the throwaway
    function: it has no handler, so a failure of either call is its own. *)
Lemma runStabilityCheck_spec (results copy : list value) (m : Memoizer)
    (args : list value) (w : world) :
  runStabilityCheck results copy m args w =
  match createAnEmptyObject m results (empty m, w) with
  | (Throw e, (_, w1)) => (Throw e, w1)
  | (Return first, s1) =>
      match createAnEmptyObject m copy s1 with
      | (Throw e, (_, w2)) => (Throw e, w2)
      | (Return second, (_, w2)) =>
          (Return tt,
           if strict_eq first second then w2 else warned results copy args w2)
      end
  end.
Proof.
  unfold runStabilityCheck, scope, createAnEmptyObject, bind.
  destruct (memoized m whole _ results (empty m, w)) as [[a|e] [s1 w1]];
    [|reflexivity].
  destruct (memoized m whole _ copy (s1, w1)) as [[b|e] [s2 w2]];
    [|reflexivity].
  destruct (strict_eq a b); reflexivity.
Qed.

(** With the default memoizer and a predicate that returns, the check
    returns, and warns exactly when the predicate judges the two
    sequences positionally unequal. *)
Lemma runStabilityCheck_default (eq : value -> value -> bool)
    (results copy args : list value) (w : world) :
  runStabilityCheck results copy (defaultMemoize (Some (pure_eq eq))) args w =
  (Return tt,
   if positionally eq copy results then allocated 1 w
   else warned results copy args (allocated 2 w)).
Proof.
  rewrite runStabilityCheck_spec; unfold createAnEmptyObject.
  cbn [memoized defaultMemoize empty slot].
  rewrite (MemoizeFacts.memoizedFn_step (pure_eq eq) whole _ results no_entry w
             w false eq_refl); simpl.
  unfold call at 1, zoom, new_object; simpl.
  match goal with
  | |- context [memoizedFn _ _ ?fn copy (?c, ?w1)] =>
      rewrite (MemoizeFacts.memoizedFn_step (pure_eq eq) whole fn copy c w1
                 _ _ (MemoizeFacts.is_hit_pure eq c copy w1))
  end; simpl.
  unfold hit; simpl.
  destruct (positionally eq copy results); simpl.
  - rewrite Nat.eqb_refl; reflexivity.
  - unfold call, zoom, new_object; simpl.
    replace (Nat.eqb (next_ref w) (S (next_ref w))) with false; [reflexivity|].
    symmetry; apply Nat.eqb_neq; lia.
Qed.

(** The identity-function check, in contrast, handles every failure of the
    probe: it returns whatever the result function does. *)
Lemma runIdentityFunctionCheck_returns (resultFunc : Func) (w : world) :
  fst (runIdentityFunctionCheck resultFunc w) = Return tt.
Proof.
  unfold runIdentityFunctionCheck, bind, try_catch.
  destruct (new_object [] w) as [[emptyObject|e] w0] eqn:Hnew;
    [|discriminate Hnew].
  destruct (resultFunc [emptyObject] w0) as [[out|e] w1]; [|reflexivity].
  destruct (strict_eq out emptyObject); reflexivity.
Qed.

(** The diagnostics of a call cannot reach the variables of the selector
    other than [firstRun], whatever the memoizer, the extractors and the
    combiner do. *)
Lemma devModeChecks_preserves (deps : list Selector) (resultFunc : Func)
    (o : CreateSelectorOptions)
    (results args : list value) (c : closure o) (w : world) :
  let c' := fst (snd (devModeChecks deps resultFunc o results args (c, w))) in
  recomputations c' = recomputations c /\
  lastResult c' = lastResult c /\
  resultCache c' = resultCache c /\
  argsCache c' = argsCache c.
Proof.
  unfold devModeChecks.
  destruct (development o); [|simpl; auto].
  unfold bind, load, gets, call, zoom, store, modify; simpl.
  pose proof (runIdentityFunctionCheck_returns resultFunc) as Hp.
  destruct (shouldRunDevModeCheck (inputStabilityCheck o) (firstRun c)); simpl.
  - destruct (collectInputSelectorResults deps args w) as [[copy|e] w1];
      simpl; auto.
    destruct (runStabilityCheck results copy (memoize o) args w1)
      as [[[]|e] w2]; simpl; auto.
    destruct (shouldRunDevModeCheck (identityFunctionCheck o) (firstRun c));
      simpl; auto.
    specialize (Hp w2).
    destruct (runIdentityFunctionCheck resultFunc w2) as [r w3];
      simpl in Hp; subst r; simpl; auto.
  - destruct (shouldRunDevModeCheck (identityFunctionCheck o) (firstRun c));
      simpl; auto.
    specialize (Hp w).
    destruct (runIdentityFunctionCheck resultFunc w) as [r w3];
      simpl in Hp; subst r; simpl; auto.
Qed.

(** C9, as stated, fails: under the default memoizer configured with the
    predicate [(a, b) => a.id === b.id], the check throws on two sequences
    that hold [undefined]; a selector in development mode then throws on
    its first call, where the same selector in production returns. *)
Lemma runStabilityCheck_can_throw :
  let failure :=
    TypeError "Cannot read properties of undefined (reading 'id')" in
  let selected := pure (fun args => get (hd VUndefined args) "selected") in
  let state := VObject 1 [("items", VNull)] in
  runStabilityCheck [VUndefined] [VUndefined] (defaultMemoize (Some sameId))
    [state] initial_world
  = (Throw failure, allocated 1 initial_world) /\
  fst (selector [selected] (pure (hd VUndefined))
         (default_options sameId defaultEqualityCheck once once true)
         [state] (created _, initial_world)) = Throw failure /\
  fst (selector [selected] (pure (hd VUndefined))
         (default_options sameId defaultEqualityCheck once once false)
         [state] (created _, initial_world)) = Return VUndefined.
Proof. repeat split. Qed.

(** C9 (amended): [runStabilityCheck] feeds the two sequences through one
    freshly memoized throwaway function.  If either call throws, the check
    throws the same exception without warning; otherwise it returns, and
    warns exactly when the two outputs are reference-unequal.  With the
    default memoizer and a predicate that does not throw it always
    returns, and warns exactly when the predicate judges the sequences
    positionally unequal.  Whatever the memoizer, the caches, the counter
    and the last result of the selector are left unchanged. *)
Theorem runStabilityCheck_warns_iff_unequal (results copy args : list value)
    (m : Memoizer) (w : world) :
  match createAnEmptyObject m results (empty m, w) with
  | (Throw e, (_, w1)) =>
      runStabilityCheck results copy m args w = (Throw e, w1)
  | (Return first, s1) =>
      match createAnEmptyObject m copy s1 with
      | (Throw e, (_, w2)) =>
          runStabilityCheck results copy m args w = (Throw e, w2)
      | (Return second, (_, w2)) =>
          runStabilityCheck results copy m args w =
          (Return tt,
           if strict_eq first second then w2 else warned results copy args w2)
      end
  end /\
  (forall eq : value -> value -> bool,
      runStabilityCheck results copy (defaultMemoize (Some (pure_eq eq))) args w =
      (Return tt,
       if positionally eq copy results then allocated 1 w
       else warned results copy args (allocated 2 w))) /\
  (forall (deps : list Selector) (resultFunc : Func)
          (o : CreateSelectorOptions) (c : closure o),
      let c' :=
        fst (snd (devModeChecks deps resultFunc o results args (c, w))) in
      recomputations c' = recomputations c /\
      lastResult c' = lastResult c /\
      resultCache c' = resultCache c /\
      argsCache c' = argsCache c).
Proof.
  split; [|split].
  - rewrite runStabilityCheck_spec.
    destruct (createAnEmptyObject m results (empty m, w)) as [[a|e] [s1 w1]];
      [|reflexivity].
    destruct (createAnEmptyObject m copy (s1, w1)) as [[b|e] [s2 w2]];
      reflexivity.
  - intro eq; apply runStabilityCheck_default.
  - intros deps resultFunc o c; apply devModeChecks_preserves.
Qed.

End StabilityFacts.

(** ** The selector factory *)

Module SelectorFacts.
Import Utils Selector More.
#[local] Arguments after_probe : simpl never.
#[local] Arguments after_checks : simpl never.

Lemma invocations_app name xs ys :
  invocations name (xs ++ ys) = invocations name xs + invocations name ys.
Proof.
  induction xs as [|[a b|n a] xs IH]; simpl; auto.
  rewrite IH; lia.
Qed.

Lemma in_order_partial (pexts : list (list value -> outcome value))
    (args : list value) (w : world) :
  in_order (map partial pexts) args w = (extract_all pexts args, w).
Proof.
  induction pexts as [|e rest IH]; simpl; [reflexivity|].
  unfold bind, partial at 1, lift.
  destruct (e args) as [r|x]; [|reflexivity].
  rewrite IH; destruct (extract_all rest args); reflexivity.
Qed.

Lemma collect_partial (pexts : list (list value -> outcome value))
    (args : list value) (w : world) :
  collectInputSelectorResults (map partial pexts) args w =
  (extract_all pexts args, w).
Proof. now rewrite UtilsFacts.collect_is_in_order, in_order_partial. Qed.

Lemma pure_as_partial (exts : list (list value -> value)) :
  map pure exts = map partial (map total exts).
Proof. rewrite map_map; reflexivity. Qed.

Lemma extract_all_total (exts : list (list value -> value)) (args : list value) :
  extract_all (map total exts) args = Return (extracted exts args).
Proof.
  induction exts as [|e rest IH]; [reflexivity|].
  change (match extract_all (map total rest) args with
          | Throw x => Throw x
          | Return rs => Return (e args :: rs)
          end = Return (e args :: extracted rest args)).
  now rewrite IH.
Qed.

Lemma probe_returns (resultFunc : Func) (w : world) :
  runIdentityFunctionCheck resultFunc w =
  (Return tt, snd (runIdentityFunctionCheck resultFunc w)).
Proof.
  pose proof (StabilityFacts.runIdentityFunctionCheck_returns resultFunc w) as H.
  destruct (runIdentityFunctionCheck resultFunc w) as [r w1]; simpl in *.
  now subst.
Qed.

Section DefaultSelector.

Variable pexts : list (list value -> outcome value).
Variable resultFunc : Func.
Variables resEq argsEq : value -> value -> bool.
Variables stab ident : DevModeCheckFrequency.
Variable dev : bool.

Local Abbreviation o :=
  (default_options (pure_eq resEq) (pure_eq argsEq) stab ident dev).
Local Abbreviation deps := (map partial pexts).
Local Abbreviation checked rs args first w :=
  (after_probe resultFunc ident dev first
     (after_checks resEq stab dev rs args first w)).

Lemma journal_after_checks rs args first w :
  journal (after_checks resEq stab dev rs args first w) = journal w.
Proof.
  unfold after_checks.
  destruct (dev && shouldRunDevModeCheck stab first); [|reflexivity].
  destruct (positionally resEq rs rs); reflexivity.
Qed.

Lemma devModeChecks_default args rs (c : closure o) w :
  extract_all pexts args = Return rs ->
  devModeChecks deps resultFunc o rs args (c, w) =
  (Return tt,
   ((if dev then set_firstRun o false c else c),
    checked rs args (firstRun c) w)).
Proof.
  intro Hx; unfold devModeChecks, after_probe, after_checks.
  cbn [development inputStabilityCheck identityFunctionCheck memoize
       default_options].
  destruct dev; [|reflexivity].
  cbn [andb].
  unfold bind, load, gets, call, zoom, store, modify.
  cbn [fst snd view update the_world].
  destruct (shouldRunDevModeCheck stab (firstRun c)).
  - rewrite collect_partial, Hx.
    cbn [fst snd].
    rewrite StabilityFacts.runStabilityCheck_default.
    destruct (shouldRunDevModeCheck ident (firstRun c)); [|reflexivity].
    rewrite probe_returns; reflexivity.
  - unfold ret at 1.
    destruct (shouldRunDevModeCheck ident (firstRun c)); [|reflexivity].
    cbn [fst snd]; rewrite probe_returns; reflexivity.
Qed.

(** One run of the raw selector body. *)
Lemma rawSelectorBody_step args (c : closure o) w :
  rawSelectorBody deps resultFunc o args (c, w) =
  match extract_all pexts args with
  | Throw x => (Throw x, (c, w))
  | Return rs =>
      let c1 := if dev then set_firstRun o false c else c in
      let w1 := checked rs args (firstRun c) w in
      let old := DefaultMemoize.lastResult (resultCache c) in
      if hit resEq (resultCache c) rs
      then (Return old,
            (set_lastResult o old
               (set_resultCache o
                  {| hasValue := true; lastArgs := rs;
                     DefaultMemoize.lastResult := old |} c1), w1))
      else match resultFunc rs w1 with
           | (Return r, w2) =>
               (Return r,
                (set_lastResult o r
                   (set_resultCache o
                      {| hasValue := true; lastArgs := rs;
                         DefaultMemoize.lastResult := r |}
                      (set_recomputations o (S (recomputations c)) c1)), w2))
           | (Throw x, w2) =>
               (Throw x, (set_recomputations o (S (recomputations c)) c1, w2))
           end
  end.
Proof.
  unfold rawSelectorBody.
  unfold bind at 1; unfold call at 1, zoom.
  cbn [fst snd view update the_world].
  rewrite collect_partial.
  destruct (extract_all pexts args) as [rs|x] eqn:Hx; [|reflexivity].
  unfold bind at 1; rewrite (devModeChecks_default args rs c w Hx).
  unfold memoizedResultFunc; cbn [memoized memoize default_options defaultMemoize].
  unfold bind at 1.
  match goal with
  | |- context [memoizedFn _ ?l ?fn ?a (?c0, ?w0)] =>
      rewrite (MemoizeFacts.memoizedFn_step (pure_eq resEq) l fn a c0 w0 _ _
                 (MemoizeFacts.is_hit_pure resEq (view l c0) a w0))
  end.
  assert (Hc : resultCache (if dev then set_firstRun o false c else c)
               = resultCache c) by (destruct dev; reflexivity).
  assert (Hn : recomputations (if dev then set_firstRun o false c else c)
               = recomputations c) by (destruct dev; reflexivity).
  cbn [view the_resultCache]; rewrite Hc.
  destruct (hit resEq (resultCache c) rs).
  - reflexivity.
  - unfold recomputationWrapper, bind, store, modify, call, zoom.
    cbn [fst snd view update the_world]; rewrite Hn.
    destruct (resultFunc rs _) as [[r|x] w2]; reflexivity.
Qed.

(** One call of the output selector. *)
Lemma selector_step args (c : closure o) w :
  selector deps resultFunc o args (c, w) =
  let old := DefaultMemoize.lastResult (argsCache c) in
  if hit argsEq (argsCache c) args
  then (Return old,
        (set_argsCache o
           {| hasValue := true; lastArgs := args;
              DefaultMemoize.lastResult := old |} c, w))
  else match rawSelectorBody deps resultFunc o args (c, w) with
       | (Return r, (c', w')) =>
           (Return r,
            (set_argsCache o
               {| hasValue := true; lastArgs := args;
                  DefaultMemoize.lastResult := r |} c', w'))
       | (Throw x, s') => (Throw x, s')
       end.
Proof.
  unfold selector; cbn [memoized argsMemoize default_options defaultMemoize].
  rewrite (MemoizeFacts.memoizedFn_step (pure_eq argsEq) (the_argsCache o) _ args
             c w _ _ (MemoizeFacts.is_hit_pure argsEq (argsCache c) args w)).
  reflexivity.
Qed.

End DefaultSelector.

Lemma probes_within_budget (ident : DevModeCheckFrequency)
    (dev first first1 : bool) (p1 p2 : nat) :
  p1 <= probe_due ident dev first ->
  (p1 = 0 /\ first1 = first) \/ first1 = (if dev then false else first) ->
  p2 <= probe_due ident dev first1 ->
  p1 + p2 <= probe_budget ident dev first.
Proof.
  unfold probe_due, probe_budget.
  intros H1 [[-> ->]| ->] H2; destruct ident, dev, first; simpl in *; lia.
Qed.

Section ObservedCombiner.

Variable pexts : list (list value -> outcome value).
Variable f : list value -> outcome value.
Variables resEq argsEq : value -> value -> bool.
Variables stab ident : DevModeCheckFrequency.
Variable dev : bool.

Local Abbreviation o :=
  (default_options (pure_eq resEq) (pure_eq argsEq) stab ident dev).
Local Abbreviation sel :=
  (selector (map partial pexts) (traced "resultFunc" f) o).
Local Abbreviation calls w := (invocations "resultFunc" (journal w)).
Local Abbreviation checked rs args first w :=
  (after_probe (traced "resultFunc" f) ident dev first
     (after_checks resEq stab dev rs args first w)).
Local Abbreviation cached rs v :=
  ({| hasValue := true; lastArgs := rs; DefaultMemoize.lastResult := v |}).
Local Abbreviation ran c :=
  (if dev then set_firstRun o false c else c).

(** The probe of the identity-function check invokes the combiner once. *)
Lemma probe_journal w :
  journal (snd (runIdentityFunctionCheck (traced "resultFunc" f) w)) =
  journal w ++ [Invoked "resultFunc" [VObject (next_ref w) []]].
Proof.
  unfold runIdentityFunctionCheck, bind, try_catch.
  change (new_object [] w) with (Return (VObject (next_ref w) []), allocated 1 w).
  cbv beta iota.
  unfold traced, bind, record, lift; simpl.
  destruct (f [VObject (next_ref w) []]) as [out|e]; [|reflexivity].
  destruct (strict_eq out (VObject (next_ref w) [])); reflexivity.
Qed.

Lemma calls_checked rs args first w :
  calls (checked rs args first w) = calls w + probe_due ident dev first.
Proof.
  unfold after_probe, probe_due.
  destruct (dev && shouldRunDevModeCheck ident first).
  - rewrite probe_journal, invocations_app, journal_after_checks; simpl; lia.
  - rewrite journal_after_checks; lia.
Qed.

(** One call of a selector whose combiner journals its invocations. *)
Lemma traced_selector_step args (c : closure o) w :
  sel args (c, w) =
  if hit argsEq (argsCache c) args
  then let old := DefaultMemoize.lastResult (argsCache c) in
       (Return old, (set_argsCache o (cached args old) c, w))
  else
    match extract_all pexts args with
    | Throw x => (Throw x, (c, w))
    | Return rs =>
        let w1 := checked rs args (firstRun c) w in
        let w2 := journal_add [Invoked "resultFunc" rs] w1 in
        if hit resEq (resultCache c) rs
        then let old := DefaultMemoize.lastResult (resultCache c) in
             (Return old,
              (set_argsCache o (cached args old)
                 (set_lastResult o old
                    (set_resultCache o (cached rs old) (ran c))), w1))
        else match f rs with
             | Return r =>
                 (Return r,
                  (set_argsCache o (cached args r)
                     (set_lastResult o r
                        (set_resultCache o (cached rs r)
                           (set_recomputations o (S (recomputations c))
                              (ran c)))), w2))
             | Throw x =>
                 (Throw x,
                  (set_recomputations o (S (recomputations c)) (ran c), w2))
             end
    end.
Proof.
  rewrite selector_step; cbv zeta.
  destruct (hit argsEq (argsCache c) args); [reflexivity|].
  rewrite rawSelectorBody_step.
  destruct (extract_all pexts args) as [rs|x]; [|reflexivity].
  cbv zeta.
  destruct (hit resEq (resultCache c) rs); [reflexivity|].
  unfold traced, bind, record, lift.
  destruct (f rs); reflexivity.
Qed.

Lemma ran_fields (c : closure o) :
  recomputations (ran c) = recomputations c /\
  resultCache (ran c) = resultCache c /\
  argsCache (ran c) = argsCache c /\
  firstRun (ran c) = (if dev then false else firstRun c).
Proof. destruct dev; auto. Qed.

(** Every invocation of the combiner is a recomputation or a probe. *)
Lemma call_account args (c : closure o) w :
  exists p,
    calls (snd (snd (sel args (c, w)))) + recomputations c =
      calls w + recomputations (fst (snd (sel args (c, w)))) + p /\
    recomputations c <= recomputations (fst (snd (sel args (c, w)))) /\
    recomputations (fst (snd (sel args (c, w)))) <= S (recomputations c) /\
    p <= probe_due ident dev (firstRun c) /\
    ((p = 0 /\ firstRun (fst (snd (sel args (c, w)))) = firstRun c) \/
     firstRun (fst (snd (sel args (c, w)))) =
       (if dev then false else firstRun c)).
Proof.
  rewrite traced_selector_step.
  destruct (ran_fields c) as (Hn & _ & _ & Hf).
  destruct (hit argsEq (argsCache c) args).
  { exists 0; simpl; repeat split; auto; lia. }
  destruct (extract_all pexts args) as [rs|x].
  2: { exists 0; simpl; repeat split; auto; lia. }
  cbv zeta.
  destruct (hit resEq (resultCache c) rs);
    [|destruct (f rs)];
    exists (probe_due ident dev (firstRun c)); simpl;
    rewrite ?invocations_app, ?calls_checked, ?Hn, ?Hf; simpl;
    repeat split; auto; lia.
Qed.

(** A call served by either tier is no recomputation. *)
Lemma served_keeps_count args rs (c : closure o) w :
  hit argsEq (argsCache c) args = true \/
  (extract_all pexts args = Return rs /\ hit resEq (resultCache c) rs = true) ->
  recomputations (fst (snd (sel args (c, w)))) = recomputations c.
Proof.
  intro H; rewrite traced_selector_step.
  destruct (ran_fields c) as (Hn & _).
  destruct (hit argsEq (argsCache c) args); [reflexivity|].
  destruct H as [H|[Hx H]]; [discriminate|].
  rewrite Hx; cbv zeta; rewrite H; simpl; exact Hn.
Qed.

(** What a call served by either tier returns. *)
Lemma served_result args rs (c : closure o) w :
  (hit argsEq (argsCache c) args = true /\
   fst (sel args (c, w)) = Return (DefaultMemoize.lastResult (argsCache c)) /\
   snd (snd (sel args (c, w))) = w) \/
  (hit argsEq (argsCache c) args = false /\
   (extract_all pexts args = Return rs ->
    hit resEq (resultCache c) rs = true ->
    fst (sel args (c, w)) = Return (DefaultMemoize.lastResult (resultCache c)))).
Proof.
  rewrite traced_selector_step.
  destruct (hit argsEq (argsCache c) args); [left; auto|right].
  split; [reflexivity|]; intros -> H; cbv zeta; rewrite H; reflexivity.
Qed.


(** What both tiers hold after a call that recomputed and returned. *)
Lemma caches_after_recomputed args rs (c : closure o) w r :
  hit argsEq (argsCache c) args = false ->
  extract_all pexts args = Return rs ->
  hit resEq (resultCache c) rs = false ->
  f rs = Return r ->
  argsCache (fst (snd (sel args (c, w)))) = cached args r /\
  resultCache (fst (snd (sel args (c, w)))) = cached rs r.
Proof.
  intros H2 Hx H1 Hf; rewrite traced_selector_step, H2, Hx; cbv zeta.
  rewrite H1, Hf; simpl; auto.
Qed.

(** Every call that returns leaves its arguments and its result in the
    argument tier. *)
Lemma argsCache_after_return args (c : closure o) w r s' :
  sel args (c, w) = (Return r, s') ->
  argsCache (fst s') = cached args r.
Proof.
  rewrite traced_selector_step.
  destruct (hit argsEq (argsCache c) args);
    [|destruct (extract_all pexts args) as [rs|x];
      [cbv zeta; destruct (hit resEq (resultCache c) rs);
       [|destruct (f rs)]|]];
    intro H; inversion H; subst; reflexivity.
Qed.

(** A call that went through the extractors and returned leaves the
    extracted values and its result in the result tier, and [firstRun]
    cleared in development mode. *)
Lemma resultCache_after_computed args (c : closure o) w r s' :
  hit argsEq (argsCache c) args = false ->
  sel args (c, w) = (Return r, s') ->
  exists rs,
    extract_all pexts args = Return rs /\
    resultCache (fst s') = cached rs r.
Proof.
  intro H2; rewrite traced_selector_step, H2.
  destruct (extract_all pexts args) as [rs|x]; [|discriminate].
  cbv zeta.
  destruct (hit resEq (resultCache c) rs); [|destruct (f rs)];
    intro H; inversion H; subst; exists rs; auto.
Qed.

(** A call that throws, in an extractor or in the combiner, leaves both
    tiers as they were. *)
Lemma caches_after_throw args (c : closure o) w x s' :
  sel args (c, w) = (Throw x, s') ->
  argsCache (fst s') = argsCache c /\
  resultCache (fst s') = resultCache c.
Proof.
  rewrite traced_selector_step.
  destruct (ran_fields c) as (_ & Hr & Ha & _).
  destruct (hit argsEq (argsCache c) args);
    [|destruct (extract_all pexts args) as [rs|x'];
      [cbv zeta; destruct (hit resEq (resultCache c) rs);
       [|destruct (f rs)]|]];
    intro H; inversion H; subst; simpl; auto.
Qed.

End ObservedCombiner.

(** C1, as stated, fails: on a freshly created selector with the default
    options, two calls with the same argument increment the counter once
    but invoke the combiner twice, the identity-function check having
    probed it on the first run. *)
Lemma combiner_invoked_by_probe :
  let selector :=
    built [Fixtures.selectA] Fixtures.identity
      (policy strict_eq strict_eq once once true) in
  let s1 := snd (selector [Fixtures.stateA 1 1] (created _, initial_world)) in
  let s2 := snd (selector [Fixtures.stateA 1 1] s1) in
  positionally strict_eq [Fixtures.stateA 1 1] [Fixtures.stateA 1 1] = true /\
  recomputations (fst s2) = 1 /\
  combiner_calls (snd s2) = 2.
Proof. vm_compute; repeat split. Qed.

(** C1 (amended): for a selector built from pure extractors and a pure
    combiner, two calls in succession whose arguments compare equal under
    the configured equality policy (the raw arguments under the
    argument-tier predicate, or the extracted values under the
    result-tier predicate) increment [recomputations()] at most once
    across both calls: the result tier invokes the combiner at most once.
    Beyond that the combiner is invoked only by the identity-function
    probe of development mode: not at all in production or with frequency
    ['never'], at most once over the two calls with ['once'], at most
    twice with ['always']. *)
Theorem cache_hit_law (exts : list (list value -> value))
    (g : list value -> value) (resEq argsEq : value -> value -> bool)
    (stab ident : DevModeCheckFrequency) (dev : bool)
    (c : closure (policy resEq argsEq stab ident dev)) (w : world)
    (args1 args2 : list value) :
  positionally argsEq args2 args1 = true \/
  positionally resEq (extracted exts args2) (extracted exts args1) = true ->
  let selector :=
    built exts (fun rs => Return (g rs)) (policy resEq argsEq stab ident dev) in
  let s1 := snd (selector args1 (c, w)) in
  let s2 := snd (selector args2 s1) in
  recomputations (fst s2) <= recomputations c + 1 /\
  combiner_calls (snd s2) <=
    combiner_calls w + 1 + probe_budget ident dev (firstRun c) /\
  (dev = false \/ ident = never ->
   combiner_calls (snd s2) <= combiner_calls w + 1).
Proof.
  unfold policy, built, combiner_calls in *; intros Heq; cbv zeta.
  rewrite pure_as_partial.
  set (f := fun rs => Return (g rs)).
  set (pexts := map total exts).
  assert (Hx : forall a, extract_all pexts a = Return (extracted exts a))
    by (intro; apply extract_all_total).
  destruct (call_account pexts f resEq argsEq stab ident dev args1 c w)
    as (p1 & Hc1 & Hlo1 & Hhi1 & Hp1 & Hf1).
  assert (Hfirst :
    recomputations
      (fst (snd (selector (map partial pexts) (traced "resultFunc" f)
                   (default_options (pure_eq resEq) (pure_eq argsEq)
                      stab ident dev) args1 (c, w))))
    = recomputations c \/
    (argsCache
       (fst (snd (selector (map partial pexts) (traced "resultFunc" f)
                    (default_options (pure_eq resEq) (pure_eq argsEq)
                       stab ident dev) args1 (c, w))))
     = {| hasValue := true; lastArgs := args1;
          DefaultMemoize.lastResult := g (extracted exts args1) |} /\
     resultCache
       (fst (snd (selector (map partial pexts) (traced "resultFunc" f)
                    (default_options (pure_eq resEq) (pure_eq argsEq)
                       stab ident dev) args1 (c, w))))
     = {| hasValue := true; lastArgs := extracted exts args1;
          DefaultMemoize.lastResult := g (extracted exts args1) |})).
  { destruct (hit argsEq (argsCache c) args1) eqn:H2.
    - left; apply (served_keeps_count pexts f resEq argsEq stab ident dev
                     args1 (extracted exts args1)); auto.
    - destruct (hit resEq (resultCache c) (extracted exts args1)) eqn:H1.
      + left; apply (served_keeps_count pexts f resEq argsEq stab ident dev
                       args1 (extracted exts args1)); auto.
      + right; apply (caches_after_recomputed pexts f resEq argsEq stab ident
                        dev args1 (extracted exts args1) c w); auto. }
  destruct (selector _ _ _ args1 (c, w)) as [r1 [c1 w1]].
  cbn [fst snd] in *.
  destruct (call_account pexts f resEq argsEq stab ident dev args2 c1 w1)
    as (p2 & Hc2 & Hlo2 & Hhi2 & Hp2 & Hf2).
  pose proof (probes_within_budget ident dev (firstRun c) (firstRun c1)
                p1 p2 Hp1 Hf1 Hp2) as Hbudget.
  assert (Hrec :
    recomputations
      (fst (snd (selector (map partial pexts) (traced "resultFunc" f)
                   (default_options (pure_eq resEq) (pure_eq argsEq)
                      stab ident dev) args2 (c1, w1))))
    <= recomputations c + 1).
  { destruct Hfirst as [Hsame|[Ha Hr]]; [lia|].
    rewrite (served_keeps_count pexts f resEq argsEq stab ident dev
               args2 (extracted exts args2) c1 w1); [lia|].
    rewrite Ha, Hr; unfold hit; cbn [hasValue lastArgs andb].
    destruct Heq as [Heq|Heq]; auto. }
  split; [exact Hrec|].
  split; [lia|].
  intros Hoff.
  assert (probe_budget ident dev (firstRun c) = 0)
    by (destruct Hoff as [-> | ->]; [reflexivity | now destruct dev]).
  lia.
Qed.

Lemma cache_hit_law_witness :
  let selector :=
    built [Fixtures.selectA] (fun rs => Return (hd VUndefined rs))
      (policy strict_eq strict_eq once once true) in
  let s1 := snd (selector [Fixtures.stateA 1 1] (created _, initial_world)) in
  let s2 := snd (selector [Fixtures.stateA 2 1] s1) in
  recomputations (fst s2) <= 0 + 1 /\
  combiner_calls (snd s2) <= 0 + 1 + 1 /\
  (true = false \/ once = never -> combiner_calls (snd s2) <= 0 + 1).
Proof.
  apply (cache_hit_law [Fixtures.selectA] (hd VUndefined) strict_eq strict_eq
           once once true (created _) initial_world
           [Fixtures.stateA 1 1] [Fixtures.stateA 2 1]).
  right; reflexivity.
Defined.

(** C2, as stated, fails: with a memoizer that does not cache
    ([customMemoize], [(f) => f], at both tiers) the call that follows a
    throwing call invokes the combiner again, although its argument is the
    very argument of the call that succeeded. *)
Lemma combiner_reinvoked_without_cache :
  let selector :=
    built_from [total Fixtures.selectA] throws_above_one customMemoize_options in
  let first := selector [Fixtures.stateA 1 1] (created _, initial_world) in
  let second := selector [Fixtures.stateA 2 2] (snd first) in
  let third := selector [Fixtures.stateA 1 1] (snd second) in
  fst first = Return (VNumber 1) /\
  fst second = Throw (Error "test error") /\
  fst third = Return (VNumber 1) /\
  recomputations (fst (snd second)) = 2 /\
  recomputations (fst (snd third)) = 3 /\
  combiner_calls (snd (snd second)) = 2 /\
  combiner_calls (snd (snd third)) = 3.
Proof. vm_compute; repeat split. Qed.

(** C2 (amended): for a selector whose two tiers use the default
    memoizer: if a call that succeeded with arguments [A] is followed by a
    call that throws, in an extractor or in the combiner, a subsequent
    call whose arguments equal [A] under the configured equality policy
    returns the result cached by the successful call and is no
    recomputation; the throwing call replaced the entry of neither tier.
    The arguments equal [A] when the raw arguments agree under the
    argument-tier predicate (then nothing at all is invoked) or, the
    successful call having gone through the extractors, when the
    extracted values agree under the result-tier predicate (then the only
    invocation of the combiner is the identity-function probe of
    development mode, if it is due). *)
Theorem no_cache_on_error (pexts : list (list value -> outcome value))
    (f : list value -> outcome value) (resEq argsEq : value -> value -> bool)
    (stab ident : DevModeCheckFrequency) (dev : bool)
    (c : closure (policy resEq argsEq stab ident dev)) (w : world)
    (A B A' : list value) (r : value) (x : exn)
    (s1 s2 : closure (policy resEq argsEq stab ident dev) * world) :
  built_from pexts f (policy resEq argsEq stab ident dev) A (c, w)
    = (Return r, s1) ->
  built_from pexts f (policy resEq argsEq stab ident dev) B s1
    = (Throw x, s2) ->
  positionally argsEq A' A = true \/
  (hit argsEq (argsCache c) A = false /\
   exists rs rs',
     extract_all pexts A = Return rs /\
     extract_all pexts A' = Return rs' /\
     positionally resEq rs' rs = true) ->
  fst (built_from pexts f (policy resEq argsEq stab ident dev) A' s2)
    = Return r /\
  recomputations
    (fst (snd (built_from pexts f (policy resEq argsEq stab ident dev) A' s2)))
    = recomputations (fst s2) /\
  combiner_calls
    (snd (snd (built_from pexts f (policy resEq argsEq stab ident dev) A' s2)))
    <= combiner_calls (snd s2) + probe_due ident dev (firstRun (fst s2)) /\
  (positionally argsEq A' A = true ->
   snd (snd (built_from pexts f (policy resEq argsEq stab ident dev) A' s2))
   = snd s2) /\
  resultCache (fst s2) = resultCache (fst s1) /\
  argsCache (fst s2) = argsCache (fst s1).
Proof.
  unfold policy, built_from, combiner_calls in *; intros HA HB Heq.
  destruct s1 as [c1 w1], s2 as [c2 w2].
  pose proof (argsCache_after_return pexts f resEq argsEq stab ident dev
                A c w r _ HA) as Ha; cbn [fst] in Ha.
  destruct (caches_after_throw pexts f resEq argsEq stab ident dev
              B c1 w1 x _ HB) as (Ha2 & Hr2); cbn [fst] in Ha2, Hr2.
  cbn [fst snd].
  assert (Hargs : hit argsEq (argsCache c2) A' = positionally argsEq A' A)
    by (rewrite Ha2, Ha; reflexivity).
  assert (Hserved : exists rs',
    (hit argsEq (argsCache c2) A' = true \/
     (extract_all pexts A' = Return rs' /\
      hit resEq (resultCache c2) rs' = true)) /\
    (hit argsEq (argsCache c2) A' = false ->
     extract_all pexts A' = Return rs' /\
     hit resEq (resultCache c2) rs' = true /\
     DefaultMemoize.lastResult (resultCache c2) = r)).
  { destruct Heq as [Heq|(Hmiss & rs & rs' & HxA & HxA' & Heq)].
    - exists []; rewrite Hargs, Heq; split; [auto|discriminate].
    - exists rs'.
      destruct (resultCache_after_computed pexts f resEq argsEq stab ident dev
                  A c w r _ Hmiss HA) as (rs0 & Hrs0 & Hres).
      cbn [fst] in Hres.
      assert (rs0 = rs) by congruence; subst rs0.
      assert (Hhit : hit resEq (resultCache c2) rs' = true)
        by (rewrite Hr2, Hres; exact Heq).
      split; [right; auto|].
      intros _; repeat split; auto.
      now rewrite Hr2, Hres. }
  destruct Hserved as (rs' & Hsrv & Hres).
  pose proof (served_keeps_count pexts f resEq argsEq stab ident dev
                A' rs' c2 w2 Hsrv) as Hn.
  destruct (call_account pexts f resEq argsEq stab ident dev A' c2 w2)
    as (p & Hc & _ & _ & Hp & _).
  destruct (served_result pexts f resEq argsEq stab ident dev A' rs' c2 w2)
    as [(H2 & Hval & Hw)|(H2 & Hval)].
  - repeat split; auto; try lia.
    rewrite Hval, Ha2, Ha; reflexivity.
  - destruct (Hres H2) as (HxA' & Hhit & Hlast).
    repeat split; auto; try lia.
    + now rewrite (Hval HxA' Hhit), Hlast.
    + intro Hpos; rewrite Hargs, Hpos in H2; discriminate.
Qed.

Lemma no_cache_on_error_witness :
  let stateOf := fun args => property_of (hd VUndefined args) "a" in
  let sel :=
    built_from [stateOf] Fixtures.identity
      (policy strict_eq strict_eq once once true) in
  let s1 := snd (sel [Fixtures.stateA 1 1] (created _, initial_world)) in
  let s2 := snd (sel [VUndefined] s1) in
  fst (sel [Fixtures.stateA 2 1] s2) = Return (VNumber 1).
Proof.
  intros stateOf sel s1 s2.
  assert (H1 : sel [Fixtures.stateA 1 1] (created _, initial_world)
               = (Return (VNumber 1), s1)) by (vm_compute; reflexivity).
  assert (H2 : sel [VUndefined] s1
               = (Throw (TypeError
                    "Cannot read properties of undefined (reading 'a')"), s2))
    by (vm_compute; reflexivity).
  refine (proj1 (no_cache_on_error [stateOf] Fixtures.identity
                   strict_eq strict_eq once once true (created _)
                   initial_world [Fixtures.stateA 1 1] [VUndefined]
                   [Fixtures.stateA 2 1] (VNumber 1)
                   (TypeError "Cannot read properties of undefined (reading 'a')")
                   s1 s2 H1 H2 _)).
  right; split; [reflexivity|].
  exists [VNumber 1], [VNumber 1]; repeat split.
Defined.




End SelectorFacts.


(** ** Structured selectors *)
Module StructuredFacts.
Import Utils Selector SelectorFacts.

Lemma hit_strict_eq (e : entry) (args : list value) :
  hit strict_eq e args = true <-> hasValue e = true /\ args = lastArgs e.
Proof.
  unfold hit; now rewrite andb_true_iff, MemoizeFacts.positionally_strict_eq.
Qed.

Section Structured.

Variable keys : list string.
Variable exts : list (list value -> value).
Variables stab ident : DevModeCheckFrequency.
Variable dev : bool.

Local Abbreviation o :=
  (default_options (pure_eq strict_eq) (pure_eq strict_eq) stab ident dev).
Local Abbreviation sel :=
  (selector (map partial (map total exts)) (structuredCombiner keys) o).
Local Abbreviation good c := (consistent keys exts (argsCache c) (resultCache c)).

(** One call of the structured selector from a consistent state: it
    returns the zipped object, stays consistent, and holds what it
    returned together with the extracted values. *)
Lemma structured_call args (c : closure o) w :
  good c ->
  exists l c' w',
    sel args (c, w) =
      (Return (VObject l (combine keys (extracted exts args))), (c', w')) /\
    good c' /\
    argsCache c' =
      {| hasValue := true; lastArgs := args;
         DefaultMemoize.lastResult :=
           VObject l (combine keys (extracted exts args)) |} /\
    resultCache c' =
      {| hasValue := true; lastArgs := extracted exts args;
         DefaultMemoize.lastResult :=
           VObject l (combine keys (extracted exts args)) |}.
Proof.
  intros [Hargs Hres].
  rewrite selector_step; simpl.
  destruct (hit strict_eq (argsCache c) args) eqn:H2.
  - apply hit_strict_eq in H2; destruct H2 as [Hv ->].
    destruct (Hargs Hv) as (Hv1 & Hr & Ha).
    destruct (Hres Hv1) as [l Hl].
    assert (Hobj : DefaultMemoize.lastResult (argsCache c) =
                   VObject l (combine keys
                                (extracted exts (lastArgs (argsCache c)))))
      by (now rewrite Hr, Hl, Ha).
    exists l; eexists; eexists; split; [rewrite Hobj; reflexivity|].
    split; [|split]; simpl.
    + split; simpl; [intros _|exact Hres].
      repeat split; auto; now rewrite <- Hobj.
    + reflexivity.
    + destruct (resultCache c) as [hv la lr]; simpl in *; congruence.
  - rewrite rawSelectorBody_step, extract_all_total; simpl.
    destruct (hit strict_eq (resultCache c) (extracted exts args)) eqn:H1.
    + apply hit_strict_eq in H1; destruct H1 as [Hv1 Heq].
      destruct (Hres Hv1) as [l Hl].
      assert (Hobj : DefaultMemoize.lastResult (resultCache c) =
                     VObject l (combine keys (extracted exts args)))
        by (now rewrite Hl, <- Heq).
      exists l; eexists; eexists; split; [rewrite Hobj; reflexivity|].
      split; [|split]; simpl; [|reflexivity|reflexivity].
      split; simpl; intros _; [auto|eauto].
    + unfold structuredCombiner, new_object; simpl.
      eexists; eexists; eexists; split; [reflexivity|].
      split; [|split]; simpl; [|reflexivity|reflexivity].
      split; simpl; intros _; [auto|eauto].
Qed.

Lemma created_good : good (created o).
Proof. split; simpl; discriminate. Qed.

Lemma reset_good (c : closure o) w :
  good (fst (snd (resetRecomputations o (c, w)))).
Proof. split; simpl; discriminate. Qed.

Lemma reachable_good s : reachable o sel s -> good (fst s).
Proof.
  induction 1 as [w|args [c w] _ IH|[c w] _ _|c w w' _ IH]; simpl in *.
  - apply created_good.
  - destruct (structured_call args c w IH) as (l & c' & w' & -> & Hg & _).
    exact Hg.
  - apply (reset_good c w).
  - exact IH.
Qed.

End Structured.

Lemma structured_unfold (shape : list (string * (list value -> value)))
    (stab ident : DevModeCheckFrequency) (dev : bool) :
  structured shape stab ident dev =
  selector (map partial (map total (map snd shape)))
    (structuredCombiner (map fst shape))
    (default_options (pure_eq strict_eq) (pure_eq strict_eq) stab ident dev).
Proof.
  unfold structured, structuredSelector, pure_shape.
  rewrite !map_map; simpl.
  reflexivity.
Qed.

(** C8: from every state the structured selector can be in, a call returns
    an object whose fields zip the keys of the shape, in enumeration order,
    onto the extractor results; a second call whose extracted values
    compare equal returns the identical reference. *)
Theorem structured_selector_shape
    (shape : list (string * (list value -> value)))
    (stab ident : DevModeCheckFrequency) (dev : bool)
    (s : closure (createSelector_defaults stab ident dev) * world)
    (args : list value) :
  reachable _ (structured shape stab ident dev) s ->
  exists l s',
    structured shape stab ident dev args s =
      (Return (VObject l (combine (map fst shape)
                            (extracted (map snd shape) args))), s') /\
    forall args',
      positionally strict_eq (extracted (map snd shape) args')
        (extracted (map snd shape) args) = true ->
      fst (structured shape stab ident dev args' s') =
        Return (VObject l (combine (map fst shape)
                             (extracted (map snd shape) args))).
Proof.
  rewrite structured_unfold.
  change (closure (createSelector_defaults stab ident dev))
    with (closure (default_options (pure_eq strict_eq) (pure_eq strict_eq)
                     stab ident dev)) in s.
  change (createSelector_defaults stab ident dev)
    with (default_options (pure_eq strict_eq) (pure_eq strict_eq)
            stab ident dev).
  intro Hreach; apply reachable_good in Hreach.
  destruct s as [c w]; simpl in Hreach.
  destruct (structured_call _ _ stab ident dev args c w Hreach)
    as (l & c' & w' & Hcall & Hgood & Ha & Hr).
  exists l, (c', w'); split; [exact Hcall|].
  intros args' Heq.
  rewrite selector_step; simpl; rewrite Ha; simpl.
  destruct (hit strict_eq _ args'); [reflexivity|].
  rewrite rawSelectorBody_step, extract_all_total; simpl; rewrite Hr.
  unfold hit; simpl; rewrite Heq; reflexivity.
Qed.

Lemma structured_selector_shape_witness :
  let e1 := fun args => get (hd VUndefined args) "a" in
  let e2 := fun args => get (hd VUndefined args) "b" in
  let state := VObject 1 [("a", VNumber 1); ("b", VNumber 2)] in
  let state' := VObject 2 [("a", VNumber 1); ("b", VNumber 2)] in
  let sel := structured [("x", e1); ("y", e2)] once once true in
  exists l s',
    sel [state] (created _, initial_world) =
      (Return (VObject l [("x", e1 [state]); ("y", e2 [state])]), s') /\
    fst (sel [state'] s') =
      Return (VObject l [("x", e1 [state]); ("y", e2 [state])]).
Proof.
  intros e1 e2 state state' sel.
  destruct (structured_selector_shape [("x", e1); ("y", e2)] once once true
              (created _, initial_world) [state] (reach_created _ _ _))
    as (l & s' & Hcall & Hagain).
  exists l, s'; split; [exact Hcall|].
  apply Hagain; reflexivity.
Defined.

End StructuredFacts.

(** ** Further properties of [src/utils.ts] *)

Module MoreFacts.
Import Utils More.

(** *** Validation *)

Lemma assertIsFunction_passes (v : value) (msg : option string) :
  assertIsFunction v msg = Return tt <-> typeof v = "function".
Proof.
  unfold assertIsFunction.
  destruct (String.eqb_spec (typeof v) "function") as [E|E]; simpl;
    split; congruence.
Qed.

(** X1: [assertIsArrayOfFunctions] accepts an array exactly when
    [assertIsFunction] accepts each of its elements, whatever the messages
    given to either; in particular it accepts the empty array. *)
Theorem assertIsArrayOfFunctions_elementwise (array : list value)
    (msg msg' : option string) :
  assertIsArrayOfFunctions array msg = Return tt <->
  Forall (fun item => assertIsFunction item msg' = Return tt) array.
Proof.
  rewrite UtilsFacts.assertIsArrayOfFunctions_spec.
  destruct (forallb isFunction array) eqn:E.
  - split; [intros _|reflexivity].
    rewrite forallb_forall in E; apply Forall_forall; intros x Hx.
    now apply assertIsFunction_passes, UtilsFacts.typeof_function, E.
  - split; [discriminate|]; intro H; exfalso.
    apply UtilsFacts.not_all_functions, Exists_exists in E.
    destruct E as (x & Hx & Hn); rewrite Forall_forall in H.
    now apply Hn, (assertIsFunction_passes x msg'), H.
Qed.

(** X2: a value that [assertIsFunction] accepts is rejected by
    [assertIsObject]; with the default message the error reads
    "expected an object, instead received function". *)
Theorem function_is_not_an_object (v : value) (msg : option string) :
  assertIsFunction v msg = Return tt ->
  assertIsObject v None =
  Throw (TypeError "expected an object, instead received function").
Proof.
  intro H; apply assertIsFunction_passes in H.
  unfold assertIsObject; rewrite H; reflexivity.
Qed.

Lemma function_is_not_an_object_witness :
  assertIsObject (VFunction 4 "selectA") None =
  Throw (TypeError "expected an object, instead received function").
Proof.
  apply (function_is_not_an_object (VFunction 4 "selectA") None); reflexivity.
Defined.

(** X3: in the message of [assertIsArrayOfFunctions] the description of a
    single element is its bare [typeof] exactly when the element is not
    callable, and the descriptions of a callable and of a non-callable
    element never coincide. *)
Theorem itemType_tells_callable (x y : value) :
  (itemType x = typeof x <-> typeof x <> "function") /\
  (itemType x = itemType y -> isFunction x = isFunction y).
Proof.
  split.
  - destruct x; simpl; split; intro H; try reflexivity; try discriminate;
      try congruence.
  - destruct x, y; simpl; intro H; try reflexivity; discriminate H.
Qed.

(** This holds of single descriptions only. The message joins them with
    [", "], which a function's name may contain, so the joined message
    determines neither the elements of the array nor their number. *)
Example joined_descriptions_are_ambiguous :
  assertIsArrayOfFunctions
    [VFunction 1 "f(), string, function g"; VNumber 0] None =
  assertIsArrayOfFunctions
    [VFunction 1 "f"; VString "s"; VFunction 2 "g"; VNumber 0] None.
Proof. reflexivity. Qed.

(** X4: in the array form, [getDependencies] looks at the elements of the
    first argument only: when they are all functions it returns them,
    whatever follows the array, callable or not. *)
Theorem getDependencies_array_form_ignores_rest (ref : loc)
    (items rest : list value) :
  Forall (fun item => typeof item = "function") items ->
  getDependencies (VArray ref items :: rest) = Return items.
Proof.
  intro H; rewrite UtilsFacts.getDependencies_spec.
  change (candidates (VArray ref items :: rest)) with items.
  assert (forallb isFunction items = true) as ->; [|reflexivity].
  apply forallb_forall; intros x Hx.
  rewrite Forall_forall in H; now apply UtilsFacts.typeof_function, H.
Qed.

Lemma getDependencies_array_form_ignores_rest_witness :
  getDependencies
    [VArray 9 [VFunction 1 "a"; VFunction 2 "b"]; VString "junk"; VNull]
  = Return [VFunction 1 "a"; VFunction 2 "b"].
Proof.
  apply (getDependencies_array_form_ignores_rest 9
           [VFunction 1 "a"; VFunction 2 "b"] [VString "junk"; VNull]).
  repeat constructor.
Defined.

(** X5: an array is unpacked in the first position only: when the first
    argument is not an array, an array among the arguments is a
    non-callable element and [getDependencies] throws a [TypeError]. *)
Theorem getDependencies_array_later_rejected (first : value)
    (rest : list value) (ref : loc) (items : list value) :
  isArray first = false ->
  In (VArray ref items) rest ->
  exists m, getDependencies (first :: rest) = Throw (TypeError m).
Proof.
  intros Hfirst Hin; rewrite UtilsFacts.getDependencies_spec.
  assert (Hc : candidates (first :: rest) = first :: rest)
    by (unfold candidates; simpl; now rewrite Hfirst).
  rewrite Hc.
  assert (forallb isFunction (first :: rest) = false) as ->; [|eauto].
  apply UtilsFacts.not_all_functions, Exists_exists.
  exists (VArray ref items); split; [now right | discriminate].
Qed.

Lemma getDependencies_array_later_rejected_witness :
  exists m,
    getDependencies [VFunction 1 "a"; VArray 9 [VFunction 2 "b"]]
    = Throw (TypeError m).
Proof.
  apply (getDependencies_array_later_rejected (VFunction 1 "a")
           [VArray 9 [VFunction 2 "b"]] 9 [VFunction 2 "b"]).
  - reflexivity.
  - left; reflexivity.
Defined.

(** X6: resolving is idempotent: the dependency list [getDependencies]
    returns is accepted again and returned unchanged. *)
Theorem getDependencies_idempotent (args deps : list value) :
  getDependencies args = Return deps ->
  getDependencies deps = Return deps.
Proof.
  rewrite !UtilsFacts.getDependencies_spec.
  destruct (forallb isFunction (candidates args)) eqn:E; [|discriminate].
  intros [= <-].
  assert (Hc : candidates (candidates args) = candidates args).
  { destruct (candidates args) as [|x xs]; [reflexivity|].
    simpl in E; apply andb_true_iff in E; destruct E as [Hx _].
    unfold candidates at 1; simpl.
    destruct x; simpl in *; try reflexivity; discriminate Hx. }
  now rewrite Hc, E.
Qed.

Lemma getDependencies_idempotent_witness :
  getDependencies [VFunction 1 "a"; VFunction 2 "b"]
  = Return [VFunction 1 "a"; VFunction 2 "b"].
Proof.
  apply (getDependencies_idempotent
           [VArray 9 [VFunction 1 "a"; VFunction 2 "b"]]
           [VFunction 1 "a"; VFunction 2 "b"]).
  reflexivity.
Defined.

(** X7: [ensureIsArray] always yields an array holding the elements
    [ensureIsArray] is documented to have, and it is idempotent: applied
    to its own result it returns the identical array and allocates
    nothing. *)
Theorem ensureIsArray_idempotent (item arr : value) (w w' : world) :
  ensureIsArrayValue item w = (Return arr, w') ->
  isArray arr = true /\
  elements arr = ensureIsArray item /\
  ensureIsArrayValue arr w' = (Return arr, w').
Proof.
  unfold ensureIsArrayValue, ensureIsArray.
  destruct (isArray item) eqn:E.
  - intros [= <- <-]; rewrite E; auto.
  - intros [= <- <-]; simpl; auto.
Qed.

Lemma ensureIsArray_idempotent_witness :
  isArray (VArray 0 [VNumber 5]) = true /\
  elements (VArray 0 [VNumber 5]) = ensureIsArray (VNumber 5) /\
  ensureIsArrayValue (VArray 0 [VNumber 5]) (allocated 1 initial_world)
  = (Return (VArray 0 [VNumber 5]), allocated 1 initial_world).
Proof.
  apply (ensureIsArray_idempotent (VNumber 5) (VArray 0 [VNumber 5])
           initial_world (allocated 1 initial_world)).
  reflexivity.
Defined.

(** *** [collectInputSelectorResults] with arbitrary extractors *)

Lemma in_order_length (deps : list Selector) (args : list value) :
  forall w rs w',
    in_order deps args w = (Return rs, w') ->
    List.length rs = List.length deps.
Proof.
  induction deps as [|d rest IH]; intros w rs w' H; simpl in H.
  - injection H as <- _; reflexivity.
  - unfold bind in H.
    destruct (d args w) as [[r|e] w1]; [|discriminate].
    destruct (in_order rest args w1) as [[rs'|e] w2] eqn:Hrest; [|discriminate].
    injection H as <- _; simpl; f_equal; eauto.
Qed.

(** X8: whenever [collectInputSelectorResults] returns, it returns exactly
    one result per dependency, whatever the extractors do to the world. *)
Theorem collectInputSelectorResults_length (deps : list Selector)
    (args rs : list value) (w w' : world) :
  collectInputSelectorResults deps args w = (Return rs, w') ->
  List.length rs = List.length deps.
Proof.
  rewrite UtilsFacts.collect_is_in_order; apply in_order_length.
Qed.

Lemma collectInputSelectorResults_length_witness :
  List.length [VNumber 1; VObject 0 []] = 2.
Proof.
  apply (collectInputSelectorResults_length
           [pure Fixtures.selectA; fun _ => new_object []]
           [Fixtures.stateA 7 1] [VNumber 1; VObject 0 []]
           initial_world (allocated 1 initial_world)).
  reflexivity.
Defined.

Lemma in_order_traced_cons (name : string) (f : list value -> outcome value)
    (rest : list Selector) (args : list value) (w : world) :
  in_order (traced name f :: rest) args w =
  match f args with
  | Return v =>
      match in_order rest args (journal_add [Invoked name args] w) with
      | (Return rs, w') => (Return (v :: rs), w')
      | (Throw e, w') => (Throw e, w')
      end
  | Throw x => (Throw x, journal_add [Invoked name args] w)
  end.
Proof.
  simpl; unfold bind, traced, record, lift, bind; simpl.
  destruct (f args); reflexivity.
Qed.

(** X9: the first extractor that throws ends the run: its exception is
    the outcome, the extractors before it and itself were invoked once
    each, in order, and no later extractor is invoked. *)
Theorem collectInputSelectorResults_stops_at_first_failure
    (before after : list (string * (list value -> outcome value)))
    (d : string * (list value -> outcome value))
    (args : list value) (x : exn) (w : world) :
  Forall (fun b => returned (snd b args) = true) before ->
  snd d args = Throw x ->
  collectInputSelectorResults (traced_all (before ++ d :: after)) args w =
  (Throw x,
   journal_add (map (fun b => Invoked (fst b) args) (before ++ [d])) w).
Proof.
  intros Hbefore Hd; rewrite UtilsFacts.collect_is_in_order.
  revert w; induction Hbefore as [|[name f] before Hf _ IH]; intros w;
    unfold traced_all; simpl map.
  - destruct d as [name f]; simpl in Hd.
    change (in_order (traced name f :: traced_all after) args w
            = (Throw x, journal_add [Invoked name args] w)).
    now rewrite in_order_traced_cons, Hd.
  - change (in_order (traced name f :: traced_all (before ++ d :: after)) args w
            = (Throw x,
               journal_add
                 (Invoked name args
                  :: map (fun b => Invoked (fst b) args) (before ++ [d])) w)).
    rewrite in_order_traced_cons; simpl in Hf.
    destruct (f args) as [v|e]; [|discriminate Hf].
    rewrite IH, UtilsFacts.journal_add_app; reflexivity.
Qed.

Lemma collectInputSelectorResults_stops_at_first_failure_witness :
  collectInputSelectorResults
    (traced_all [("a", fun args => Return (Fixtures.selectA args));
                 ("boom", Fixtures.always_throws);
                 ("b", fun args => Return (Fixtures.selectB args))])
    [Fixtures.stateAB 1 1 2] initial_world
  = (Throw (Error "test error"),
     journal_add [Invoked "a" [Fixtures.stateAB 1 1 2];
                  Invoked "boom" [Fixtures.stateAB 1 1 2]] initial_world).
Proof.
  apply (collectInputSelectorResults_stops_at_first_failure
           [("a", fun args => Return (Fixtures.selectA args))]
           [("b", fun args => Return (Fixtures.selectB args))]
           ("boom", Fixtures.always_throws)
           [Fixtures.stateAB 1 1 2] (Error "test error") initial_world).
  - repeat constructor.
  - reflexivity.
Defined.

Lemma in_order_app (xs ys : list Selector) (args : list value) :
  forall w,
    in_order (xs ++ ys) args w =
    (a <- in_order xs args ;; b <- in_order ys args ;; ret (a ++ b)) w.
Proof.
  induction xs as [|d xs IH]; intros w; simpl.
  - unfold bind, ret; simpl.
    destruct (in_order ys args w) as [[b|e] w']; reflexivity.
  - unfold bind in *.
    destruct (d args w) as [[r|e] w1]; [|reflexivity].
    rewrite IH.
    destruct (in_order xs args w1) as [[a|e] w2]; [|reflexivity].
    unfold ret; simpl.
    destruct (in_order ys args w2) as [[b|e] w3]; reflexivity.
Qed.

(** X10: collecting over a concatenated dependency list is collecting over
    the first list, then over the second in the world the first left, and
    appending the results; a failure in the first list keeps the second
    from running. *)
Theorem collectInputSelectorResults_app (xs ys : list Selector)
    (args : list value) (w : world) :
  collectInputSelectorResults (xs ++ ys) args w =
  (a <- collectInputSelectorResults xs args ;;
   b <- collectInputSelectorResults ys args ;;
   ret (a ++ b)) w.
Proof.
  rewrite UtilsFacts.collect_is_in_order, in_order_app.
  unfold bind; rewrite UtilsFacts.collect_is_in_order.
  destruct (in_order xs args w) as [[a|e] w1]; [|reflexivity].
  now rewrite UtilsFacts.collect_is_in_order.
Qed.

(** *** The diagnostics *)

(** X11: under a memoizer that returns the function it is given
    ([customMemoize] of the tests) the stability check warns on every
    run, also when the two sequences are identical: it returns, allocates
    two objects, and reports the arguments and both sequences. *)
Theorem runStabilityCheck_customMemoize_always_warns
    (results copy args : list value) (w : world) :
  runStabilityCheck results copy customMemoize args w =
  (Return tt, warned results copy args (allocated 2 w)).
Proof.
  rewrite StabilityFacts.runStabilityCheck_spec.
  unfold createAnEmptyObject, customMemoize, call, zoom, new_object; simpl.
  replace (Nat.eqb (next_ref w) (S (next_ref w))) with false; [reflexivity|].
  symmetry; apply Nat.eqb_neq; lia.
Qed.

(** The probe of [runIdentityFunctionCheck], whatever the result function
    does. *)
Lemma runIdentityFunctionCheck_spec (resultFunc : Func) (w : world) :
  runIdentityFunctionCheck resultFunc w =
  let emptyObject := VObject (next_ref w) [] in
  match resultFunc [emptyObject] (allocated 1 w) with
  | (Return out, w1) =>
      (Return tt, if strict_eq out emptyObject then identity_warned w1 else w1)
  | (Throw _, w1) => (Return tt, w1)
  end.
Proof.
  unfold runIdentityFunctionCheck, bind, try_catch.
  change (new_object [] w) with (Return (VObject (next_ref w) []), allocated 1 w).
  cbv beta iota.
  destruct (resultFunc [VObject (next_ref w) []] (allocated 1 w))
    as [[out|e] w1]; [|reflexivity].
  destruct (strict_eq out (VObject (next_ref w) [])); reflexivity.
Qed.

(** X12: [runIdentityFunctionCheck] never throws: an exception of the
    probed result function is swallowed, and then nothing is written to
    the console beyond what the result function wrote itself. *)
Theorem runIdentityFunctionCheck_swallows (resultFunc : Func) (w : world) :
  fst (runIdentityFunctionCheck resultFunc w) = Return tt /\
  (forall e w1,
      resultFunc [VObject (next_ref w) []] (allocated 1 w) = (Throw e, w1) ->
      snd (runIdentityFunctionCheck resultFunc w) = w1).
Proof.
  rewrite runIdentityFunctionCheck_spec; cbv zeta.
  destruct (resultFunc [VObject (next_ref w) []] (allocated 1 w))
    as [[out|e] w1]; simpl; split; auto; intros e' w' H; congruence.
Qed.

(** X13: for a side-effect-free result function, the identity-function
    check invokes it once, with one fresh empty object as sole argument,
    and warns exactly when it returns that very object. *)
Theorem runIdentityFunctionCheck_warns_iff_identity
    (f : list value -> outcome value) (w : world) :
  let emptyObject := VObject (next_ref w) [] in
  let probed :=
    journal_add [Invoked "resultFunc" [emptyObject]] (allocated 1 w) in
  runIdentityFunctionCheck (traced "resultFunc" f) w =
  (Return tt,
   match f [emptyObject] with
   | Return out => if strict_eq out emptyObject then identity_warned probed
                   else probed
   | Throw _ => probed
   end).
Proof.
  rewrite runIdentityFunctionCheck_spec; cbv zeta.
  unfold traced, bind, record, lift; simpl.
  destruct (f [VObject (next_ref w) []]) as [out|e]; reflexivity.
Qed.

(** X14: over the runs of a selector, of which only the first has
    [firstRun] set, a check of frequency ['always'] runs every time, one
    of frequency ['once'] exactly once, one of frequency ['never'] not at
    all. *)
Theorem shouldRunDevModeCheck_runs (n : nat) :
  runs always n = S n /\ runs once n = 1 /\ runs never n = 0.
Proof.
  unfold runs; simpl; repeat split; f_equal;
    induction n as [|n IH]; simpl; auto.
Qed.

End MoreFacts.

(** ** The scenarios of [test/test_selector.ts], replayed on the model *)

Module Scenarios.
Import Utils Selector Fixtures.

Example basic_selector :
  observe (built [selectA] identity createSelector_options)
    [[stateA 1 1]; [stateA 1 1]; [stateA 2 1]; [stateA 3 2]]
  = [(Return (VNumber 1), 1); (Return (VNumber 1), 1);
     (Return (VNumber 1), 1); (Return (VNumber 2), 2)].
Proof. reflexivity. Qed.

Example basic_selector_multiple_keys :
  observe (built [selectA; selectB] sum createSelector_options)
    [[stateAB 1 1 2]; [stateAB 1 1 2]; [stateAB 2 3 2]; [stateAB 2 3 2]]
  = [(Return (VNumber 3), 1); (Return (VNumber 3), 1);
     (Return (VNumber 5), 2); (Return (VNumber 5), 2)].
Proof. reflexivity. Qed.

Example recomputes_result_after_exception :
  observe (built [selectA] always_throws createSelector_options)
    [[stateA 1 1]; [stateA 2 1]]
  = [(Throw (Error "test error"), 1); (Throw (Error "test error"), 2)].
Proof. reflexivity. Qed.

Example memoizes_previous_result_before_exception :
  observe (built [selectA] throws_above_one createSelector_options)
    [[stateA 1 1]; [stateA 2 2]; [stateA 1 1]]
  = [(Return (VNumber 1), 1); (Throw (Error "test error"), 2);
     (Return (VNumber 1), 2)].
Proof. reflexivity. Qed.

Example override_valueEquals :
  observe (built [selectA] identity (policy sameType strict_eq once once true))
    [[stateA 1 1]; [stateA 2 2]; [VObject 3 [("a", VString "A")]]]
  = [(Return (VNumber 1), 1); (Return (VNumber 1), 1);
     (Return (VString "A"), 2)].
Proof. reflexivity. Qed.

(** The second call is a hit for a predicate that compares the field
    [foo]; the third call is then compared with the second one. *)
Example exported_memoize_passes_correct_objects_to_equalityCheck :
  let someObject := VObject 1 [("foo", VString "bar")] in
  let anotherObject := VObject 2 [("foo", VString "bar")] in
  let sameFoo := fun a b => strict_eq (get a "foo") (get b "foo") in
  journal
    (snd (snd (replay (standalone sameFoo identity)
                 [[someObject]; [anotherObject]; [anotherObject]]
                 (no_entry, initial_world))))
  = [EqualityCheck anotherObject someObject;
     EqualityCheck anotherObject anotherObject].
Proof. reflexivity. Qed.

(** The spec's scenario: the third call passes a new object with an equal
    field and is served by the result tier. *)
Example served_from_result_tier_after_exception :
  observe (built [selectA] throws_above_one createSelector_options)
    [[stateA 1 1]; [stateA 2 2]; [stateA 3 1]]
  = [(Return (VNumber 1), 1); (Throw (Error "test error"), 2);
     (Return (VNumber 1), 2)].
Proof. reflexivity. Qed.

(** "basic selector invalid input selector": the message the validation
    builds for an anonymous function followed by a string. *)
Example basic_selector_invalid_input_selector :
  getDependencies [VFunction 1 ""; VString "not a function"] =
  Throw (TypeError
    "createSelector expects all input-selectors to be functions, but received the following types: [function unnamed(), string]").
Proof. reflexivity. Qed.

(** "first argument can be an array" *)
Example first_argument_can_be_an_array :
  getDependencies [VArray 9 [VFunction 1 "a"; VFunction 2 "b"]] =
  Return [VFunction 1 "a"; VFunction 2 "b"].
Proof. reflexivity. Qed.

(** A selector without extractors is created and runs: its combiner
    receives no argument, and every later call is served by the result
    tier. *)
Example selector_without_extractors :
  observe (built [] (fun rs => Return (VNumber (Z.of_nat (List.length rs))))
             createSelector_options)
    [[stateA 1 1]; [stateA 2 2]]
  = [(Return (VNumber 0), 1); (Return (VNumber 0), 1)].
Proof. reflexivity. Qed.

Example resetRecomputations_scenario :
  let sel := built [selectA] identity createSelector_options in
  let s := snd (sel [stateA 2 2] (snd (sel [stateA 1 1] (created _, initial_world)))) in
  let after_reset := snd (resetRecomputations _ s) in
  recomputations (fst s) = 2 /\
  recomputations (fst after_reset) = 0 /\
  fst (sel [stateA 3 2] after_reset) = Return (VNumber 2) /\
  recomputations (fst (snd (sel [stateA 3 2] after_reset))) = 1.
Proof. repeat split. Qed.

Example structured_selector_scenario :
  observe (structured [("x", selectA); ("y", selectB)] once once true)
    [[stateAB 1 1 2]; [stateAB 2 1 2]; [stateAB 3 2 2]]
  = [(Return (VObject 3 [("x", VNumber 1); ("y", VNumber 2)]), 1);
     (Return (VObject 3 [("x", VNumber 1); ("y", VNumber 2)]), 1);
     (Return (VObject 4 [("x", VNumber 2); ("y", VNumber 2)]), 2)].
Proof. reflexivity. Qed.

End Scenarios.
